(** * dnf-plugins-perfmetrics: the metrics filter, the result writer and the
    retention sweep of [plugins/perfmetrics.py], embedded and verified.

    The plugin's Python code is translated function by function.  Exceptions
    are a sum type ([result]); the metrics dictionary is a finite map; the
    metrics directory is an ordered list of named entries.  A string is a
    sequence of characters with code points below 256; a clock reading (a
    Python float) is kept as the rational it stands for. *)

From Stdlib Require Import ZArith QArith Qround Lqa Ascii String DecimalString.
From Stdlib Require Import DecimalPos DecimalZ Qabs.
From stdpp Require Import gmap strings list.

Local Open Scope string_scope.
Local Open Scope Z_scope.

(** ** Python values, exceptions and results *)

(** The exceptions the plugin's code can meet.  [OSError] and its subclasses
    are the ones [except (IOError, OSError)] catches ([IOError] is an alias of
    [OSError] in Python 3). *)
Inductive exn : Type :=
| ValueError
| TypeError
| AttributeError
| FileNotFoundError
| FileExistsError
| IsADirectoryError
| NotADirectoryError
| PermissionError
| OSError (errno : Z)
| OverflowError.

Definition is_OSError (e : exn) : bool :=
  match e with
  | FileNotFoundError | FileExistsError | IsADirectoryError
  | NotADirectoryError | PermissionError | OSError _ => true
  | ValueError | TypeError | AttributeError | OverflowError => false
  end.

(** A call either returns a value or raises. *)
Inductive result (A : Type) : Type :=
| Return (a : A)
| Raise (e : exn).
Arguments Return {A} a.
Arguments Raise {A} e.

Definition raises {A} (r : result A) : bool :=
  match r with Raise _ => true | Return _ => false end.

(** The values a log record's [msg] holds in this model. *)
Inductive py_value : Type :=
| PyStr (s : string)
| PyInt (z : Z)
| PyBool (b : bool)
| PyNone.

(** [str(v)] *)
Definition py_str (v : py_value) : string :=
  match v with
  | PyStr s => s
  | PyInt z => NilZero.string_of_int (Z.to_int z)
  | PyBool true => "True"
  | PyBool false => "False"
  | PyNone => "None"
  end.

(** ** [int(str)]

    Python's [int] on a string: surrounding whitespace is stripped, one sign
    is allowed, and the rest is decimal digits, where single underscores may
    separate digits.  Anything else is a [ValueError].  Among the characters
    below 256 the whitespace [int] strips is tab to carriage return (9 to
    13), the space (32) and the two non-ASCII blanks U+0085 and U+00A0; the
    separators 28 to 31 are not stripped.  The interpreter's optional cap on
    the number of digits is not modelled. *)

Definition is_digit (c : ascii) : bool :=
  let n := N_of_ascii c in ((48 <=? n) && (n <=? 57))%N.

Definition digit_value (c : ascii) : Z := Z.of_N (N_of_ascii c) - 48.

Definition is_py_space (c : ascii) : bool :=
  let n := N_of_ascii c in
  (((9 <=? n) && (n <=? 13)) || (n =? 32) || (n =? 133) || (n =? 160))%N.

Fixpoint lstrip (s : list ascii) : list ascii :=
  match s with
  | c :: s' => if is_py_space c then lstrip s' else s
  | [] => []
  end.

Definition strip (s : list ascii) : list ascii :=
  rev (lstrip (rev (lstrip s))).

(** Digits with single underscores between them; [prev] tells whether the
    previous character was a digit. *)
Fixpoint digits_ok (prev : bool) (s : list ascii) : bool :=
  match s with
  | [] => prev
  | c :: s' =>
      if is_digit c then digits_ok true s'
      else if Ascii.eqb c "_" then prev && digits_ok false s'
      else false
  end.

Fixpoint digits_value (acc : Z) (s : list ascii) : Z :=
  match s with
  | [] => acc
  | c :: s' =>
      if is_digit c then digits_value (10 * acc + digit_value c) s'
      else digits_value acc s'
  end.

Definition py_int_digits (s : list ascii) : result Z :=
  if digits_ok false s then Return (digits_value 0 s) else Raise ValueError.

Definition py_int (s : string) : result Z :=
  match strip (list_ascii_of_string s) with
  | c :: s' =>
      if Ascii.eqb c "-" then
        match py_int_digits s' with
        | Return v => Return (- v)
        | Raise e => Raise e
        end
      else if Ascii.eqb c "+" then py_int_digits s'
      else py_int_digits (c :: s')
  | [] => Raise ValueError
  end.

(** [int(x)] on a float: truncation toward zero. *)
Definition py_int_of_float (x : Q) : Z := Z.quot (Qnum x) (Zpos (Qden x)).

(** ** The fragment of [re] that [TIME_PATTERN] uses *)

Inductive regex : Type :=
| Bol                                   (* ^ *)
| Eol                                   (* $ *)
| Lit (s : string)                      (* literal text *)
| Star (p : ascii -> bool)              (* c*, greedy, c a character set *)
| Plus (p : ascii -> bool)              (* c+, greedy *)
| Group (name : string) (r : regex)     (* (?P<name>r) *)
| Cat (r1 r2 : regex).

Definition captures := list (string * string).

Fixpoint strip_prefix (l s : string) : option string :=
  match l, s with
  | EmptyString, _ => Some s
  | String a l', String b s' => if Ascii.eqb a b then strip_prefix l' s' else None
  | String _ _, EmptyString => None
  end.

(** [$] without MULTILINE: at the end, or just before a final newline. *)
Definition at_eol (s : string) : bool :=
  match s with
  | EmptyString => true
  | String c EmptyString => Ascii.eqb c "010"
  | _ => false
  end.

(** Greedy repetition with backtracking: the longest run is tried first. *)
Fixpoint star {A} (p : ascii -> bool) (pos : nat) (s : string)
    (k : nat -> string -> option A) : option A :=
  match s with
  | String c s' =>
      if p c then
        match star p (S pos) s' k with
        | Some r => Some r
        | None => k pos s
        end
      else k pos s
  | EmptyString => k pos s
  end.

(** Backtracking matcher in continuation-passing style: [pos] is the number
    of characters consumed so far, [s] what is left. *)
Fixpoint rmatch {A} (r : regex) (pos : nat) (s : string) (caps : captures)
    (k : nat -> string -> captures -> option A) : option A :=
  match r with
  | Bol => if Nat.eqb pos 0 then k pos s caps else None
  | Eol => if at_eol s then k pos s caps else None
  | Lit l =>
      match strip_prefix l s with
      | Some s' => k (pos + String.length l)%nat s' caps
      | None => None
      end
  | Star p => star p pos s (fun pos' s' => k pos' s' caps)
  | Plus p =>
      match s with
      | String c s' =>
          if p c then star p (S pos) s' (fun pos' s' => k pos' s' caps) else None
      | EmptyString => None
      end
  | Group name r' =>
      rmatch r' pos s caps
        (fun pos' s' caps' => k pos' s' ((name, substring 0 (pos' - pos) s) :: caps'))
  | Cat r1 r2 =>
      rmatch r1 pos s caps (fun pos' s' caps' => rmatch r2 pos' s' caps' k)
  end.

(** [pattern.fullmatch(s)]: the whole string has to be consumed. *)
Definition fullmatch (r : regex) (s : string) : option captures :=
  rmatch r 0 s []
    (fun _ s' caps => match s' with EmptyString => Some caps | _ => None end).

(** [m.group(name)] *)
Fixpoint group (m : captures) (name : string) : string :=
  match m with
  | (n, v) :: m' => if String.eqb n name then v else group m' name
  | [] => ""
  end.

(** [s.replace(a, b)] for single characters [a] and [b]. *)
Fixpoint str_replace (a b : ascii) (s : string) : string :=
  match s with
  | String c s' => String (if Ascii.eqb c a then b else c) (str_replace a b s')
  | EmptyString => EmptyString
  end.

(** ** The metrics record *)

Record package_action := {
  pa_name : string;
  pa_arch : string;
  pa_epoch : string;
  pa_version : string;
  pa_release : string;
  pa_action : string;
  pa_package_size : Z;
  pa_install_size : Z;
}.

Inductive metric_value : Type :=
| MInt (z : Z)
| MStrings (l : list string)
| MActions (l : list package_action).

Module MetricsFilter.

(** Any character but a newline. *)
Definition dot (c : ascii) : bool := negb (Ascii.eqb c "010").

(** [[0-9.]] *)
Definition digit_or_dot (c : ascii) : bool := is_digit c || Ascii.eqb c ".".

(** The pattern [^timer: (?P<event>.STAR): (?P<millisecs>[0-9.]+) ms$],
    where [.STAR] stands for the greedy any-character repetition. *)
Definition TIME_PATTERN : regex :=
  Cat Bol
    (Cat (Lit "timer: ")
       (Cat (Group "event" (Star dot))
          (Cat (Lit ": ")
             (Cat (Group "millisecs" (Plus digit_or_dot))
                (Cat (Lit " ms") Eol))))).

(** [filter(self, record)]: the dictionary after the call and what the call
    returns.  [metrics_dict] is the dictionary the plugin shares with the
    filter. *)
Definition filter (metrics_dict : gmap string metric_value) (msg : py_value)
    : gmap string metric_value * result bool :=
  match fullmatch TIME_PATTERN (py_str msg) with
  | Some m =>
      let k := str_replace " " "_" (group m "event") ++ "_time" in
      match py_int (group m "millisecs") with
      | Return v => (<[k := MInt v]> metrics_dict, Return false)
      | Raise e => (metrics_dict, Raise e)
      end
  | None => (metrics_dict, Return false)
  end.

End MetricsFilter.

(** ** The world outside the process *)

(** What sits at a directory entry: a subdirectory, or a file.  A file written
    in full by [write_results] holds the JSON text of a metrics record
    ([Some m]); any other file, also a truncated one, is [File None]. *)
Inductive node : Type :=
| Dir
| File (content : option (gmap string metric_value)).

Record dir_entry := { node_of : node; st_mtime : Q }.

(** The entries of the metrics directory, in the order [os.listdir] reports
    them.  Names are unique in a well-formed directory. *)
Definition directory := list (string * dir_entry).

Definition names (d : directory) : list string := map fst d.

(** What the path [metrics_dir] names. *)
Inductive path_state : Type :=
| Absent
| NotDir
| IsDir (d : directory).

(** A record the plugin sends to [LOGGER]. *)
Record log_record := { levelname : string; msg_format : string; msg_arg : string }.

(** The world: the state of [metrics_dir], and the records the plugin has
    logged so far. *)
Record world := {
  at_metrics_dir : path_state;
  logged : list log_record;
}.

(** What the operating system and sibling processes do during one call: the
    process identity, the failures of directory creation, of [open] and of
    writing, and, per entry name, whether a sibling sweeper deletes the entry
    just before this process stats or removes it. *)
Record environment := {
  geteuid : Z;
  getpid : Z;
  makedirs_error : option exn;
  open_error : option exn;
  write_error : option exn;
  gone_before_stat : string -> bool;
  gone_before_remove : string -> bool;
}.

Fixpoint find_entry (name : string) (d : directory) : option dir_entry :=
  match d with
  | [] => None
  | (n, e) :: d' => if String.eqb n name then Some e else find_entry name d'
  end.

Fixpoint unlink (name : string) (d : directory) : directory :=
  match d with
  | [] => []
  | (n, e) :: d' =>
      if String.eqb n name then unlink name d' else (n, e) :: unlink name d'
  end.

(** Creating or truncating a file: an existing entry is replaced in place, a
    new one is added at the end. *)
Fixpoint put_entry (name : string) (e : dir_entry) (d : directory) : directory :=
  match d with
  | [] => [(name, e)]
  | (n, x) :: d' =>
      if String.eqb n name then (n, e) :: d' else (n, x) :: put_entry name e d'
  end.

(** [os.path.join(a, b)] *)
Definition os_path_join (a b : string) : string :=
  match b with
  | String "/" _ => b
  | _ =>
      match String.rev a with
      | EmptyString => b
      | String "/" _ => a ++ b
      | _ => a ++ "/" ++ b
      end
  end.

(** [x < y] on clock readings. *)
Definition Qltb (x y : Q) : bool := negb (Qle_bool y x).

(** ** Float arithmetic

    The result of an operation on floats is the exact result rounded to the
    nearest binary64 number, ties to even.  Results beyond the largest
    float, which the machine turns into an infinity, are left as the rounded
    rational: compared with a float they give the same answer. *)

(** The nearest integer, ties to even. *)
Definition round_half_even (q : Q) : Z :=
  let n := Qnum q in
  let d := Zpos (Qden q) in
  match (2 * (n mod d) ?= d)%Z with
  | Lt => (n / d)%Z
  | Gt => (n / d + 1)%Z
  | Eq => if Z.even (n / d) then (n / d)%Z else (n / d + 1)%Z
  end.

(** For [q > 0], the exponent [e] with [2 ^ e <= q < 2 ^ (e + 1)]. *)
Definition floor_log2 (q : Q) : Z :=
  let e := (Z.log2 (Qnum q) - Z.log2 (Zpos (Qden q)))%Z in
  if Qle_bool (Qpower 2 e) q then e else (e - 1)%Z.

(** Rounding to binary64: 53 significant bits, and no exponent below that
    of the subnormal numbers. *)
Definition round_binary64 (q : Q) : Q :=
  if Qeq_bool q 0 then 0%Q
  else
    let e := Z.max (floor_log2 (Qabs q)) (-1022) in
    let ulp := Qpower 2 (e - 52) in
    (inject_Z (round_half_even (q / ulp)) * ulp)%Q.

(** An int where a float is needed: Python converts it, and refuses an int
    that rounds to a magnitude of [2 ^ 1024] or more. *)
Definition float_of_int (z : Z) : result Q :=
  if (2 ^ 1024 - 2 ^ 970 <=? Z.abs z)%Z then Raise OverflowError
  else Return (round_binary64 (inject_Z z)).

(** ** Operations on the metrics directory, as a state and error monad *)

Definition M (A : Type) : Type := directory -> directory * result A.

#[global] Instance M_ret : MRet M := fun A a d => (d, Return a).

(** A computation that does not touch the directory. *)
Definition lift {A} (r : result A) : M A := fun d => (d, r).

#[global] Instance M_bind : MBind M := fun A B f m d =>
  match m d with
  | (d', Return a) => f a d'
  | (d', Raise e) => (d', Raise e)
  end.

(** [os.stat(join(metrics_dir, f))] *)
Definition os_stat (env : environment) (f : string) : M dir_entry :=
  fun d =>
    if gone_before_stat env f then (unlink f d, Raise FileNotFoundError)
    else
      match find_entry f d with
      | Some e => (d, Return e)
      | None => (d, Raise FileNotFoundError)
      end.

(** [os.remove(join(metrics_dir, f))]: unlinking a directory fails. *)
Definition os_remove (env : environment) (f : string) : M unit :=
  fun d =>
    if gone_before_remove env f then (unlink f d, Raise FileNotFoundError)
    else
      match find_entry f d with
      | Some e =>
          match node_of e with
          | Dir => (d, Raise IsADirectoryError)
          | File _ => (unlink f d, Return tt)
          end
      | None => (d, Raise FileNotFoundError)
      end.

(** An environment in which nothing fails and no sibling interferes. *)
Definition quiet (euid pid : Z) : environment :=
  {| geteuid := euid; getpid := pid;
     makedirs_error := None; open_error := None; write_error := None;
     gone_before_stat := fun _ => false;
     gone_before_remove := fun _ => false |}.

(** ** The plugin *)

Module DnfPerfMetrics.

Definition DEFAULT_METRICS_DIR : string := "/var/log/dnf/perfmetrics".
Definition DEFAULT_RETENTION_HOURS : Z := 4.

(** The attributes of the plugin object.  [transaction_start_time] does not
    exist before [pre_transaction] has run. *)
Record plugin := {
  time_metrics : gmap string metric_value;
  full_command_start_time : Q;
  transaction_start_time : option Q;
  metrics_dir : string;
  retention_hours : Z;
}.

(** The parsed configuration file: sections of options. *)
Definition config_parser := gmap string (gmap string string).

Definition has_section (cp : config_parser) (sec : string) : bool :=
  bool_decide (is_Some (cp !! sec)).

Definition has_option (cp : config_parser) (sec opt : string) : bool :=
  match cp !! sec with
  | Some o => bool_decide (is_Some (o !! opt))
  | None => false
  end.

Definition get (cp : config_parser) (sec opt : string) : string :=
  match cp !! sec with
  | Some o => default "" (o !! opt)
  | None => ""
  end.

(** [__init__]: [proc_name] and [parents] are what [psutil] reports for the
    process and its ancestors (nearest first), [argv] is [sys.argv]. *)
Definition init (now : Q) (proc_name : string) (parents argv : list string)
    : plugin :=
  {| time_metrics :=
       <["command_args" := MStrings argv]>
         (<["process_tree" := MStrings (rev (proc_name :: parents))]> ∅);
     full_command_start_time := now;
     transaction_start_time := None;
     metrics_dir := DEFAULT_METRICS_DIR;
     retention_hours := DEFAULT_RETENTION_HOURS |}.

Definition set_metrics_dir (self : plugin) (v : string) : plugin :=
  {| time_metrics := time_metrics self;
     full_command_start_time := full_command_start_time self;
     transaction_start_time := transaction_start_time self;
     metrics_dir := v;
     retention_hours := retention_hours self |}.

Definition set_retention_hours (self : plugin) (v : Z) : plugin :=
  {| time_metrics := time_metrics self;
     full_command_start_time := full_command_start_time self;
     transaction_start_time := transaction_start_time self;
     metrics_dir := metrics_dir self;
     retention_hours := v |}.

Definition set_metric (self : plugin) (k : string) (v : metric_value) : plugin :=
  {| time_metrics := <[k := v]> (time_metrics self);
     full_command_start_time := full_command_start_time self;
     transaction_start_time := transaction_start_time self;
     metrics_dir := metrics_dir self;
     retention_hours := retention_hours self |}.

Definition set_transaction_start_time (self : plugin) (t : Q) : plugin :=
  {| time_metrics := time_metrics self;
     full_command_start_time := full_command_start_time self;
     transaction_start_time := Some t;
     metrics_dir := metrics_dir self;
     retention_hours := retention_hours self |}.

(** [config]: the plugin after the call (attributes assigned before a raise
    stay assigned) and the outcome. *)
Definition config (self : plugin) (cp : config_parser) : plugin * result unit :=
  if has_section cp "main" then
    let self1 :=
      if has_option cp "main" "metrics_dir"
      then set_metrics_dir self (get cp "main" "metrics_dir")
      else self in
    if has_option cp "main" "retention_hours" then
      match py_int (get cp "main" "retention_hours") with
      | Return v => (set_retention_hours self1 v, Return tt)
      | Raise e => (self1, Raise e)
      end
    else (self1, Return tt)
  else (self, Return tt).

(** [pre_transaction]: [members] are the transaction's members, in the
    host's order, each already read into a record. *)
Definition pre_transaction (self : plugin) (members : list package_action)
    (now : Q) : plugin :=
  set_metric (set_transaction_start_time self now)
    "package_actions" (MActions members).

(** A message logged at the handler while the plugin is alive: the filter
    works on the plugin's own dictionary. *)
Definition log_message (self : plugin) (msg : py_value) : plugin * result bool :=
  let '(d, r) := MetricsFilter.filter (time_metrics self) msg in
  ({| time_metrics := d;
      full_command_start_time := full_command_start_time self;
      transaction_start_time := transaction_start_time self;
      metrics_dir := metrics_dir self;
      retention_hours := retention_hours self |}, r).

(** [now - retention_hours * 3600]: the product is an int, which the
    subtraction from a float converts to a float first. *)
Definition threshold (now : Q) (retention_hours : Z) : result Q :=
  match float_of_int (retention_hours * 3600) with
  | Return t => Return (round_binary64 (now - t))
  | Raise e => Raise e
  end.

(** [mtime < now - retention_hours * 3600] *)
Definition is_old (now : Q) (retention_hours : Z) (mtime : Q) : result bool :=
  match threshold now retention_hours with
  | Return t => Return (Qltb mtime t)
  | Raise e => Raise e
  end.

(** The loop of [cleanup_old_logs] over the listing. *)
Fixpoint sweep (env : environment) (now : Q) (retention_hours : Z)
    (listing : list string) : M unit :=
  match listing with
  | [] => mret tt
  | f :: rest =>
      st ← os_stat env f;
      old ← lift (is_old now retention_hours (st_mtime st));
      if old : bool
      then os_remove env f;; sweep env now retention_hours rest
      else sweep env now retention_hours rest
  end.

Definition cleanup_old_logs (env : environment) (self : plugin) (now : Q)
    (w : world) : world * result unit :=
  match at_metrics_dir w with
  | IsDir d =>
      let '(d', r) := sweep env now (retention_hours self) (names d) d in
      ({| at_metrics_dir := IsDir d'; logged := logged w |}, r)
  | NotDir => (w, Raise NotADirectoryError)
  | Absent => (w, Raise FileNotFoundError)
  end.

Section Writer.

(** How Python prints a float. *)
Variable float_repr : Q -> string.

Definition record_name (env : environment) (now : Q) : string :=
  "perfmetrics-" ++ float_repr now ++ "_"
    ++ NilZero.string_of_int (Z.to_int (getpid env)) ++ ".json".

(** [open(filename, "w")] followed by [json.dump] and the final newline. *)
Definition open_and_write (env : environment) (self : plugin) (now : Q)
    (st : path_state) : path_state * result unit :=
  match open_error env with
  | Some e => (st, Raise e)
  | None =>
      match st with
      | Absent => (st, Raise FileNotFoundError)
      | NotDir => (st, Raise NotADirectoryError)
      | IsDir d =>
          let name := record_name env now in
          match node_of <$> find_entry name d with
          | Some Dir => (st, Raise IsADirectoryError)
          | _ =>
              match write_error env with
              | Some e =>
                  (IsDir (put_entry name
                            {| node_of := File None; st_mtime := now |} d),
                   Raise e)
              | None =>
                  (IsDir (put_entry name
                            {| node_of := File (Some (time_metrics self));
                               st_mtime := now |} d),
                   Return tt)
              end
          end
      end
  end.

Definition write_results (env : environment) (self : plugin) (now : Q)
    (w : world) : world * result unit :=
  let made :=
    match at_metrics_dir w with
    | Absent =>
        match makedirs_error env with
        | Some e => Raise e
        | None => Return (IsDir [])
        end
    | st => Return st
    end in
  match made with
  | Raise e => (w, Raise e)
  | Return st =>
      let filename := os_path_join (metrics_dir self) (record_name env now) in
      match open_and_write env self now st with
      | (st', Return _) =>
          ({| at_metrics_dir := st'; logged := logged w |}, Return tt)
      | (st', Raise e) =>
          if is_OSError e then
            ({| at_metrics_dir := st';
                logged :=
                  logged w
                  ++ [{| levelname := "ERROR";
                         msg_format := "Error writing performance metrics to file %s";
                         msg_arg := filename |}] |},
             Return tt)
          else ({| at_metrics_dir := st'; logged := logged w |}, Raise e)
      end
  end.

(** [transaction]: [now] is the clock at entry, [now_w] and [now_c] are the
    readings taken by [write_results] and [cleanup_old_logs].  The elapsed
    time is taken on the exact values of the readings: the rounding of the
    float subtraction and product before [int] is not modelled. *)
Definition transaction (env : environment) (self : plugin) (now now_w now_c : Q)
    (w : world) : plugin * world * result unit :=
  match transaction_start_time self with
  | None => (self, w, Raise AttributeError)
  | Some t0 =>
      let self1 :=
        set_metric self "full_transaction_time"
          (MInt (py_int_of_float ((now - t0) * inject_Z 1000))) in
      if negb (geteuid env =? 0) then (self1, w, Return tt)
      else
        match write_results env self1 now_w w with
        | (w1, Raise e) => (self1, w1, Raise e)
        | (w1, Return _) =>
            let '(w2, r) := cleanup_old_logs env self1 now_c w1 in
            (self1, w2, r)
        end
  end.

End Writer.

End DnfPerfMetrics.

(** ** Predicates used by the statements *)

Fixpoint all_chars (p : ascii -> bool) (s : string) : bool :=
  match s with
  | String c s' => p c && all_chars p s'
  | EmptyString => true
  end.

Fixpoint has_char (a : ascii) (s : string) : bool :=
  match s with
  | String c s' => Ascii.eqb c a || has_char a s'
  | EmptyString => false
  end.

(** The text of a timer message for event [ev] and number [ms]. *)
Definition timer_message (ev ms : string) : string :=
  "timer: " ++ ev ++ ": " ++ ms ++ " ms".

Definition not_colon (c : ascii) : bool := negb (Ascii.eqb c ":").

(** The outcome of the sweep's loop over a directory's own listing, by
    recursion on the directory: what is left of it, and how the loop ends.
    [sweep_closed_form] below proves that the loop computes it. *)
Fixpoint sweep_outcome (env : environment) (now : Q) (retention_hours : Z)
    (d : directory) : directory * result unit :=
  match d with
  | [] => ([], Return tt)
  | (f, e) :: d' =>
      if gone_before_stat env f then (d', Raise FileNotFoundError)
      else
        match DnfPerfMetrics.is_old now retention_hours (st_mtime e) with
        | Raise x => (d, Raise x)
        | Return true =>
            if gone_before_remove env f then (d', Raise FileNotFoundError)
            else
              match node_of e with
              | Dir => (d, Raise IsADirectoryError)
              | File _ => sweep_outcome env now retention_hours d'
              end
        | Return false =>
            let '(d'', r) := sweep_outcome env now retention_hours d' in
            ((f, e) :: d'', r)
        end
  end.

(** A directory is well formed when no name occurs twice. *)
Definition well_formed (w : world) : Prop :=
  match at_metrics_dir w with
  | IsDir d => NoDup (names d)
  | _ => True
  end.

(** The entries the sweep keeps: those the test finds not older than the
    threshold. *)
Definition fresh (now : Q) (retention_hours : Z) (p : string * dir_entry) : bool :=
  match DnfPerfMetrics.is_old now retention_hours (st_mtime p.2) with
  | Return false => true
  | _ => false
  end.

(** An entry the sweep gets past without an error when nothing interferes:
    the test does not raise on it, and it is not a subdirectory older than
    the threshold. *)
Definition passable (now : Q) (retention_hours : Z) (p : string * dir_entry) : bool :=
  match DnfPerfMetrics.is_old now retention_hours (st_mtime p.2) with
  | Return old =>
      match node_of p.2 with
      | Dir => negb old
      | File _ => true
      end
  | Raise _ => false
  end.

(** [s.endswith(suf)] *)
Fixpoint ends_with (suf s : string) : bool :=
  String.eqb s suf
  || match s with
     | String _ s' => ends_with suf s'
     | EmptyString => false
     end.

(** ** Sample data *)

Definition sample_plugin : DnfPerfMetrics.plugin :=
  DnfPerfMetrics.init 999000 "dnf" ["bash"; "sshd"; "systemd"]
    ["/usr/bin/dnf"; "install"; "vim"].

Definition sample_now : Q := 1000000.

Definition plain_file (mtime : Q) : dir_entry :=
  {| node_of := File None; st_mtime := mtime |}.

Definition subdirectory (mtime : Q) : dir_entry :=
  {| node_of := Dir; st_mtime := mtime |}.

(** A file exactly four hours old, one a second older, and a recent one. *)
Definition sample_directory : directory :=
  [ ("perfmetrics-985600.0_71.json", plain_file (1000000 - 14400));
    ("perfmetrics-985599.0_70.json", plain_file (1000000 - 14401));
    ("perfmetrics-999990.5_72.json", plain_file 999990) ].

Definition sample_world : world :=
  {| at_metrics_dir := IsDir sample_directory; logged := [] |}.

Definition sample_world_swept : world :=
  {| at_metrics_dir :=
       IsDir [ ("perfmetrics-985600.0_71.json", plain_file (1000000 - 14400));
               ("perfmetrics-999990.5_72.json", plain_file 999990) ];
     logged := [] |}.

(** Two stale records; a sibling sweeper removes the first one just before
    this process does. *)
Definition stale_directory : directory :=
  [ ("perfmetrics-900000.0_11.json", plain_file 900000);
    ("perfmetrics-900001.0_12.json", plain_file 900001) ].

Definition stale_world : world :=
  {| at_metrics_dir := IsDir stale_directory; logged := [] |}.

Definition sibling_wins_remove : environment :=
  {| geteuid := 0; getpid := 4242;
     makedirs_error := None; open_error := None; write_error := None;
     gone_before_stat := fun _ => false;
     gone_before_remove := fun f => String.eqb f "perfmetrics-900000.0_11.json" |}.

Definition sibling_wins_stat : environment :=
  {| geteuid := 0; getpid := 4242;
     makedirs_error := None; open_error := None; write_error := None;
     gone_before_stat := fun f => String.eqb f "perfmetrics-900000.0_11.json";
     gone_before_remove := fun _ => false |}.

(** A stale subdirectory between a recent file and a stale record. *)
Definition mixed_directory : directory :=
  [ ("perfmetrics-999990.5_72.json", plain_file 999990);
    ("archive", subdirectory 900000);
    ("perfmetrics-900001.0_12.json", plain_file 900001) ].

Definition mixed_world : world :=
  {| at_metrics_dir := IsDir mixed_directory; logged := [] |}.

(** The directory is missing and cannot be created: the file system is
    mounted read-only ([EROFS], errno 30). *)
Definition read_only_file_system : environment :=
  {| geteuid := 0; getpid := 4242;
     makedirs_error := Some (OSError 30);
     open_error := None; write_error := None;
     gone_before_stat := fun _ => false;
     gone_before_remove := fun _ => false |}.

Definition missing_world : world :=
  {| at_metrics_dir := Absent; logged := [] |}.

(** The disk is full when the record is written ([ENOSPC], errno 28). *)
Definition disk_full : environment :=
  {| geteuid := 0; getpid := 4242;
     makedirs_error := None; open_error := None;
     write_error := Some (OSError 28);
     gone_before_stat := fun _ => false;
     gone_before_remove := fun _ => false |}.

Definition sample_float_repr (x : Q) : string := "1000000.25".

Definition sample_members : list package_action :=
  [ {| pa_name := "vim-enhanced"; pa_arch := "x86_64"; pa_epoch := "2";
       pa_version := "9.1.083"; pa_release := "1.fc40"; pa_action := "Install";
       pa_package_size := 2000000; pa_install_size := 4100000 |} ].

Definition config_abc : DnfPerfMetrics.config_parser :=
  {[ "main" := {[ "retention_hours" := "abc" ]} ]}.

Definition config_other_section : DnfPerfMetrics.config_parser :=
  {[ "extra" := {[ "retention_hours" := "abc" ]} ]}.

(** * Theorems *)

(** ** The matcher on timer messages *)

Lemma substring_app_prefix (a b : string) :
  substring 0 (String.length a) (a ++ b) = a.
Proof.
  induction a as [|c a IH]; simpl.
  - destruct b; reflexivity.
  - now rewrite IH.
Qed.

Lemma star_none {A} (p : ascii -> bool) (t : string)
    (k : nat -> string -> option A) :
  (forall n t1 t2, t = t1 ++ t2 -> k n t2 = None) ->
  forall pos, star p pos t k = None.
Proof.
  induction t as [|c t IH]; intros Hk pos; simpl.
  - apply (Hk pos "" ""). reflexivity.
  - assert (Hrest : star p (S pos) t k = None).
    { apply IH. intros n t1 t2 ->. apply (Hk n (String c t1) t2). reflexivity. }
    rewrite Hrest.
    destruct (p c); apply (Hk pos "" (String c t)); reflexivity.
Qed.

Lemma star_head {A} (p : ascii -> bool) (c : ascii) (t : string)
    (k : nat -> string -> option A) (pos : nat) :
  (forall n t1 t2, t = t1 ++ t2 -> k n t2 = None) ->
  star p pos (String c t) k = k pos (String c t).
Proof.
  intros Hk. simpl. rewrite (star_none p t k Hk). now destruct (p c).
Qed.

Lemma star_prefix {A} (p : ascii -> bool) (e t : string)
    (k : nat -> string -> option A) (r : A) :
  all_chars p e = true ->
  forall pos,
    star p (pos + String.length e) t k = Some r ->
    star p pos (e ++ t) k = Some r.
Proof.
  induction e as [|c e IH]; intros He pos Hr; simpl in *.
  - now rewrite Nat.add_0_r in Hr.
  - apply andb_true_iff in He as [Hc He]. rewrite Hc.
    rewrite (IH He (S pos)); [reflexivity|].
    now rewrite <- Nat.add_succ_comm in Hr.
Qed.

Lemma strip_prefix_app (l s : string) : strip_prefix l (l ++ s) = Some s.
Proof.
  induction l as [|c l IH]; simpl.
  - now destruct s.
  - now rewrite Ascii.eqb_refl.
Qed.

Lemma all_chars_app (p : ascii -> bool) (a b : string) :
  all_chars p (a ++ b) = all_chars p a && all_chars p b.
Proof.
  induction a as [|c a IH]; simpl; [reflexivity|].
  now rewrite IH, andb_assoc.
Qed.

Lemma all_chars_impl (p q : ascii -> bool) (s : string) :
  (forall c, p c = true -> q c = true) ->
  all_chars p s = true -> all_chars q s = true.
Proof.
  intros Hpq. induction s as [|c s IH]; simpl; [reflexivity|].
  intros [Hc Hs]%andb_true_iff. now rewrite (Hpq c Hc), IH.
Qed.

Lemma digit_or_dot_not_colon (c : ascii) :
  MetricsFilter.digit_or_dot c = true -> not_colon c = true.
Proof.
  unfold not_colon. destruct (Ascii.eqb_spec c ":") as [->|]; [|reflexivity].
  vm_compute. discriminate.
Qed.

Lemma digit_or_dot_not_space (c : ascii) :
  MetricsFilter.digit_or_dot c = true -> is_py_space c = false.
Proof.
  unfold MetricsFilter.digit_or_dot, is_digit, is_py_space.
  destruct (Ascii.eqb_spec c ".") as [->|_]; [reflexivity|].
  rewrite orb_false_r. intros [H1 H2]%andb_true_iff.
  apply N.leb_le in H1, H2.
  replace (N_of_ascii c <=? 13)%N with false by (symmetry; apply N.leb_gt; lia).
  replace (N_of_ascii c =? 32)%N with false by (symmetry; apply N.eqb_neq; lia).
  replace (N_of_ascii c =? 133)%N with false by (symmetry; apply N.eqb_neq; lia).
  replace (N_of_ascii c =? 160)%N with false by (symmetry; apply N.eqb_neq; lia).
  now rewrite andb_false_r.
Qed.

(** No suffix of a text without a colon starts the [": "] literal. *)
Lemma no_colon_suffix (t t1 t2 : string) :
  all_chars not_colon t = true -> t = t1 ++ t2 -> strip_prefix ": " t2 = None.
Proof.
  intros Ht ->. rewrite all_chars_app in Ht.
  apply andb_true_iff in Ht as [_ Ht].
  destruct t2 as [|c t2]; [reflexivity|].
  simpl in Ht. apply andb_true_iff in Ht as [Hc _].
  unfold not_colon in Hc. apply negb_true_iff in Hc.
  cbn [strip_prefix]. rewrite Ascii.eqb_sym, Hc. reflexivity.
Qed.

(** The end of the pattern, from the number on. *)
Lemma match_millisecs (ms : string) (pos : nat) (caps : captures) :
  ms <> "" ->
  all_chars MetricsFilter.digit_or_dot ms = true ->
  rmatch (Cat (Group "millisecs" (Plus MetricsFilter.digit_or_dot))
            (Cat (Lit " ms") Eol))
    pos (ms ++ " ms") caps
    (fun _ s' caps' => match s' with EmptyString => Some caps' | _ => None end)
  = Some (("millisecs", ms) :: caps).
Proof.
  intros Hne Hms. destruct ms as [|c ms]; [congruence|].
  cbn [all_chars] in Hms. apply andb_true_iff in Hms as [Hc Hms].
  cbn [rmatch]. change (String c ms ++ " ms") with (String c (ms ++ " ms")).
  cbv beta iota. rewrite Hc.
  apply star_prefix; [exact Hms|].
  change (star MetricsFilter.digit_or_dot (S pos + String.length ms) " ms") with
    (fun k : nat -> string -> option captures => k (S pos + String.length ms)%nat " ms").
  cbv beta. change (strip_prefix " ms" " ms") with (Some "").
  cbn [at_eol].
  replace (S pos + String.length ms - pos)%nat with (String.length (String c ms))
    by (cbn [String.length]; lia).
  change (String c (ms ++ " ms")) with (String c ms ++ " ms").
  now rewrite substring_app_prefix.
Qed.

(** A timer message matches, and the groups are the event and the number. *)
Lemma fullmatch_timer (ev ms : string) :
  all_chars MetricsFilter.dot ev = true ->
  ms <> "" ->
  all_chars MetricsFilter.digit_or_dot ms = true ->
  fullmatch MetricsFilter.TIME_PATTERN (timer_message ev ms)
  = Some [("millisecs", ms); ("event", ev)].
Proof.
  intros Hev Hne Hms.
  unfold fullmatch, timer_message, MetricsFilter.TIME_PATTERN.
  cbn [rmatch Nat.eqb]. rewrite strip_prefix_app.
  apply star_prefix; [exact Hev|].
  etransitivity.
  { apply (star_head MetricsFilter.dot ":" (" " ++ ms ++ " ms")).
    intros n t1 t2 Ht.
    rewrite (no_colon_suffix (" " ++ ms ++ " ms") t1 t2); [reflexivity| |exact Ht].
    change (" " ++ ms ++ " ms") with (String " " (ms ++ " ms")).
    cbn [all_chars]. rewrite all_chars_app.
    rewrite (all_chars_impl _ _ ms digit_or_dot_not_colon Hms). reflexivity. }
  change (String ":" (" " ++ ms ++ " ms")) with (": " ++ (ms ++ " ms")).
  rewrite strip_prefix_app.
  set (pos := (0 + String.length "timer: " + String.length ev
               + String.length ": ")%nat).
  set (caps := [("event",
                 substring 0
                   (0 + String.length "timer: " + String.length ev
                    - (0 + String.length "timer: "))
                   (ev ++ ": " ++ ms ++ " ms"))]).
  transitivity (Some (("millisecs", ms) :: caps)).
  { exact (match_millisecs ms pos caps Hne Hms). }
  subst caps.
  replace (0 + String.length "timer: " + String.length ev
           - (0 + String.length "timer: "))%nat
    with (String.length ev) by lia.
  now rewrite substring_app_prefix.
Qed.

(** [int] fails on a number with a decimal point. *)
Lemma digits_ok_dot (s : list ascii) :
  In "."%char s -> forall prev, digits_ok prev s = false.
Proof.
  induction s as [|c s IH]; intros Hin prev; [destruct Hin|].
  cbn [digits_ok].
  destruct (is_digit c) eqn:Hd.
  - destruct Hin as [->|Hin]; [discriminate Hd|]. now apply IH.
  - destruct (Ascii.eqb_spec c "_") as [->|_]; [|reflexivity].
    destruct Hin as [Hin|Hin]; [discriminate Hin|].
    rewrite (IH Hin). apply andb_false_r.
Qed.

Lemma lstrip_head (c : ascii) (s : list ascii) :
  is_py_space c = false -> lstrip (c :: s) = c :: s.
Proof. intros H. cbn [lstrip]. now rewrite H. Qed.

Lemma strip_id (s : list ascii) :
  Forall (fun c => is_py_space c = false) s -> strip s = s.
Proof.
  intros Hs. unfold strip.
  assert (Hl : forall l, Forall (fun c => is_py_space c = false) l -> lstrip l = l).
  { intros [|c l] Hl; [reflexivity|]. apply lstrip_head. now inversion Hl. }
  rewrite (Hl s Hs), Hl, rev_involutive; [reflexivity|].
  now apply Forall_rev.
Qed.

Lemma all_chars_Forall (p : ascii -> bool) (s : string) :
  all_chars p s = true -> Forall (fun c => p c = true) (list_ascii_of_string s).
Proof.
  induction s as [|c s IH]; simpl; [constructor|].
  intros [Hc Hs]%andb_true_iff. constructor; auto.
Qed.

Lemma has_char_In (a : ascii) (s : string) :
  has_char a s = true -> In a (list_ascii_of_string s).
Proof.
  induction s as [|c s IH]; simpl; [discriminate|].
  intros [Hc|Hs]%orb_true_iff.
  - left. now apply Ascii.eqb_eq.
  - right. auto.
Qed.

Lemma py_int_decimal (ms : string) :
  all_chars MetricsFilter.digit_or_dot ms = true ->
  has_char "." ms = true ->
  py_int ms = Raise ValueError.
Proof.
  intros Hms Hdot. unfold py_int.
  rewrite strip_id.
  2:{ eapply Forall_impl; [apply all_chars_Forall, Hms|].
      intros c. apply digit_or_dot_not_space. }
  pose proof (has_char_In _ _ Hdot) as Hin.
  pose proof (all_chars_Forall _ _ Hms) as Hall.
  destruct (list_ascii_of_string ms) as [|c s]; [reflexivity|].
  destruct (Ascii.eqb_spec c "-") as [->|_].
  { inversion Hall; subst. discriminate. }
  destruct (Ascii.eqb_spec c "+") as [->|_].
  { inversion Hall; subst. discriminate. }
  unfold py_int_digits. now rewrite digits_ok_dot.
Qed.

(** [int] only ever raises [ValueError]. *)
Lemma py_int_raises (s : string) (e : exn) : py_int s = Raise e -> e = ValueError.
Proof.
  unfold py_int, py_int_digits.
  destruct (strip _) as [|c l]; [congruence|].
  destruct (Ascii.eqb c "-"); [destruct (digits_ok false l); congruence|].
  destruct (Ascii.eqb c "+"); [destruct (digits_ok false l); congruence|].
  destruct (digits_ok false (c :: l)); congruence.
Qed.

(** The filter either returns [False] or raises [ValueError]; it never
    returns [True]. *)
Lemma filter_outcomes (d : gmap string metric_value) (msg : py_value) :
  (MetricsFilter.filter d msg).2 = Return false
  \/ (MetricsFilter.filter d msg = (d, Raise ValueError)).
Proof.
  unfold MetricsFilter.filter.
  destruct (fullmatch _ _) as [m|]; [|now left].
  destruct (py_int _) as [v|e] eqn:He; [now left|].
  right. now rewrite (py_int_raises _ _ He).
Qed.

(** On every timer message whose number has a decimal point the filter
    raises [ValueError] and leaves the dictionary as it was. *)
Lemma filter_decimal_raises (d : gmap string metric_value) (ev ms : string) :
  all_chars MetricsFilter.dot ev = true ->
  all_chars MetricsFilter.digit_or_dot ms = true ->
  has_char "." ms = true ->
  MetricsFilter.filter d (PyStr (timer_message ev ms)) = (d, Raise ValueError).
Proof.
  intros Hev Hms Hdot. unfold MetricsFilter.filter. cbn [py_str].
  rewrite fullmatch_timer; [|assumption|now destruct ms|assumption].
  cbn [group String.eqb Ascii.eqb Bool.eqb].
  now rewrite (py_int_decimal ms Hms Hdot).
Qed.


Lemma digits_ok_digits (s : list ascii) :
  Forall (fun c => is_digit c = true) s -> digits_ok true s = true.
Proof.
  induction 1 as [|c s Hc _ IH]; [reflexivity|].
  cbn [digits_ok]. now rewrite Hc.
Qed.

Lemma py_int_digits_only (ms : string) :
  ms <> "" ->
  all_chars is_digit ms = true ->
  py_int ms = Return (digits_value 0 (list_ascii_of_string ms)).
Proof.
  intros Hne Hms. unfold py_int.
  assert (Hdd : all_chars MetricsFilter.digit_or_dot ms = true).
  { apply (all_chars_impl is_digit); [|exact Hms].
    intros c Hc. unfold MetricsFilter.digit_or_dot. now rewrite Hc. }
  rewrite strip_id.
  2:{ eapply Forall_impl; [apply all_chars_Forall, Hdd|].
      intros c. apply digit_or_dot_not_space. }
  pose proof (all_chars_Forall _ _ Hms) as Hall.
  destruct ms as [|c ms]; [congruence|].
  cbn [list_ascii_of_string] in *.
  inversion Hall as [|? ? Hc Hrest]; subst.
  destruct (Ascii.eqb_spec c "-") as [->|_]; [discriminate Hc|].
  destruct (Ascii.eqb_spec c "+") as [->|_]; [discriminate Hc|].
  unfold py_int_digits. cbn [digits_ok]. rewrite Hc.
  now rewrite (digits_ok_digits _ Hrest).
Qed.

(** On a timer message with a whole number the filter stores the number
    under the event's key and returns [False]. *)
Lemma filter_integer_stores (d : gmap string metric_value) (ev ms : string) :
  all_chars MetricsFilter.dot ev = true ->
  ms <> "" ->
  all_chars is_digit ms = true ->
  MetricsFilter.filter d (PyStr (timer_message ev ms))
  = (<[str_replace " " "_" ev ++ "_time"
       := MInt (digits_value 0 (list_ascii_of_string ms))]> d,
     Return false).
Proof.
  intros Hev Hne Hms. unfold MetricsFilter.filter. cbn [py_str].
  rewrite fullmatch_timer; [|assumption|assumption|].
  - cbn [group String.eqb Ascii.eqb Bool.eqb].
    now rewrite (py_int_digits_only ms Hne Hms).
  - apply (all_chars_impl is_digit); [|exact Hms].
    intros c Hc. unfold MetricsFilter.digit_or_dot. now rewrite Hc.
Qed.

Example filter_depsolve :
  MetricsFilter.filter ∅ (PyStr "timer: depsolve: 532 ms")
  = ({[ "depsolve_time" := MInt 532 ]}, Return false).
Proof. vm_compute. reflexivity. Qed.

Example filter_no_match :
  MetricsFilter.filter ∅ (PyStr "Completion plugin: Generating completion cache...")
  = (∅, Return false).
Proof. vm_compute. reflexivity. Qed.

Example filter_not_a_string :
  MetricsFilter.filter ∅ (PyInt (-42)) = (∅, Return false).
Proof. vm_compute. reflexivity. Qed.

(** C1 (code defect).  The claim: a timer message whose number has a decimal
    point, such as "timer: rpm transaction: 12.9 ms", makes the parser store
    the number truncated toward zero (12) under rpm_transaction_time.  The
    code: the pattern accepts the message, and [int] then rejects the text
    "12.9", so the filter raises [ValueError] and stores nothing. *)
Theorem C1_decimal_timer_raises :
  MetricsFilter.filter ∅ (PyStr "timer: rpm transaction: 12.9 ms")
  = (∅, Raise ValueError)
  /\ (MetricsFilter.filter ∅ (PyStr "timer: rpm transaction: 12.9 ms")).1
       !! "rpm_transaction_time" = None.
Proof.
  assert (H : MetricsFilter.filter ∅ (PyStr "timer: rpm transaction: 12.9 ms")
              = (∅, Raise ValueError)).
  { apply (filter_decimal_raises ∅ "rpm transaction" "12.9"); reflexivity. }
  split; [exact H|]. rewrite H. apply lookup_empty.
Qed.

(** C2 (code defect).  The claim: the filter never raises, whatever the
    message, malformed text included.  The code: on the malformed timer text
    "timer: depsolve: 1.2.3 ms" the pattern matches and the conversion of
    "1.2.3" by [int] raises [ValueError] out of the filter. *)
Theorem C2_filter_raises_on_malformed_number :
  raises (MetricsFilter.filter ∅ (PyStr "timer: depsolve: 1.2.3 ms")).2 = true
  /\ (MetricsFilter.filter ∅ (PyStr "timer: depsolve: 1.2.3 ms")).2
     = Raise ValueError.
Proof.
  rewrite (filter_decimal_raises ∅ "depsolve" "1.2.3"); [|reflexivity..].
  split; reflexivity.
Qed.

(** C8 (code defect).  The claim: for every message the filter returns
    [False], so that the message goes no further.  The code: on
    "timer: sack setup: 0.5 ms" the filter does not return at all, it raises
    [ValueError] before its [return False] is reached. *)
Theorem C8_filter_does_not_return_false_on_decimal :
  (MetricsFilter.filter ∅ (PyStr "timer: sack setup: 0.5 ms")).2
  = Raise ValueError
  /\ (MetricsFilter.filter ∅ (PyStr "timer: sack setup: 0.5 ms")).2
     <> Return false.
Proof.
  rewrite (filter_decimal_raises ∅ "sack setup" "0.5"); [|reflexivity..].
  split; [reflexivity|discriminate].
Qed.

(** ** The retention sweep *)

Import DnfPerfMetrics.

Local Open Scope list_scope.

(** One turn of the loop, spelled out. *)
Lemma sweep_cons (env : environment) (now : Q) (rh : Z) (f : string)
    (rest : list string) (d : directory) :
  sweep env now rh (f :: rest) d =
  match os_stat env f d with
  | (d1, Return st) =>
      match is_old now rh (st_mtime st) with
      | Return true =>
          match os_remove env f d1 with
          | (d2, Return _) => sweep env now rh rest d2
          | (d2, Raise e) => (d2, Raise e)
          end
      | Return false => sweep env now rh rest d1
      | Raise e => (d1, Raise e)
      end
  | (d1, Raise e) => (d1, Raise e)
  end.
Proof.
  cbn [sweep]. unfold mbind, M_bind, lift.
  destruct (os_stat env f d) as [d1 [st|e]]; [|reflexivity].
  destruct (is_old now rh (st_mtime st)) as [[|]|x]; reflexivity.
Qed.

(** The loop over a concatenated listing: the second part runs only when the
    first has ended without an error. *)
Lemma sweep_app (env : environment) (now : Q) (rh : Z) (l1 l2 : list string) :
  forall d,
    sweep env now rh (l1 ++ l2) d =
    match sweep env now rh l1 d with
    | (d1, Return _) => sweep env now rh l2 d1
    | (d1, Raise e) => (d1, Raise e)
    end.
Proof.
  induction l1 as [|f l1 IH]; intros d; [reflexivity|].
  rewrite <- app_comm_cons, !sweep_cons.
  destruct (os_stat env f d) as [d1 [st|e]]; [|reflexivity].
  destruct (is_old now rh (st_mtime st)) as [[|]|x]; [|apply IH|reflexivity].
  destruct (os_remove env f d1) as [d2 [[]|e]]; [apply IH|reflexivity].
Qed.

Lemma find_entry_head (f : string) (e : dir_entry) (d : directory) :
  find_entry f ((f, e) :: d) = Some e.
Proof. cbn [find_entry]. now rewrite String.eqb_refl. Qed.

Lemma find_entry_skip (f : string) (kept rest : directory) :
  f ∉ names kept -> find_entry f (kept ++ rest) = find_entry f rest.
Proof.
  induction kept as [|[n x] kept IH]; intros Hf; [reflexivity|].
  cbn [names map fst] in Hf. apply not_elem_of_cons in Hf as [Hne Hf].
  cbn [app find_entry]. destruct (String.eqb_spec n f) as [->|_]; [congruence|].
  now apply IH.
Qed.

Lemma find_entry_names (f : string) (d : directory) :
  find_entry f d = None <-> f ∉ names d.
Proof.
  induction d as [|[n x] d IH]; cbn [find_entry names map fst].
  - split; [intros _; apply not_elem_of_nil|reflexivity].
  - rewrite not_elem_of_cons. destruct (String.eqb_spec n f) as [->|Hne].
    + split; [discriminate|intros [? _]; congruence].
    + rewrite IH. unfold names. split; [intros ?; split; congruence|now intros [_ ?]].
Qed.

Lemma unlink_absent (f : string) (d : directory) :
  f ∉ names d -> unlink f d = d.
Proof.
  induction d as [|[n x] d IH]; intros Hf; [reflexivity|].
  cbn [names map fst] in Hf. apply not_elem_of_cons in Hf as [Hne Hf].
  cbn [unlink]. destruct (String.eqb_spec n f) as [->|_]; [congruence|].
  now rewrite IH.
Qed.

Lemma unlink_app (f : string) (a b : directory) :
  unlink f (a ++ b) = unlink f a ++ unlink f b.
Proof.
  induction a as [|[n x] a IH]; [reflexivity|].
  cbn [app unlink]. destruct (String.eqb n f); [exact IH|].
  now rewrite IH.
Qed.

Lemma unlink_here (f : string) (e : dir_entry) (kept rest : directory) :
  NoDup (names (kept ++ (f, e) :: rest)) ->
  unlink f (kept ++ (f, e) :: rest) = kept ++ rest.
Proof.
  unfold names. rewrite map_app. cbn [map fst].
  intros Hnd. apply NoDup_app in Hnd as (_ & Hdisj & Hnd).
  apply NoDup_cons in Hnd as [Hf _].
  rewrite unlink_app. cbn [unlink]. rewrite String.eqb_refl.
  rewrite !unlink_absent; [reflexivity|exact Hf|].
  intros Hin. apply (Hdisj f Hin). left.
Qed.

(** On a directory's own listing the loop computes [sweep_outcome]. *)
Lemma sweep_closed_form (env : environment) (now : Q) (rh : Z)
    (rest : directory) :
  forall kept,
    NoDup (names (kept ++ rest)) ->
    sweep env now rh (names rest) (kept ++ rest)
    = let '(rest', r) := sweep_outcome env now rh rest in (kept ++ rest', r).
Proof.
  induction rest as [|[f e] rest IH]; intros kept Hnd.
  - reflexivity.
  - assert (Hf : f ∉ names kept).
    { unfold names in *. rewrite map_app in Hnd.
      apply NoDup_app in Hnd as (_ & Hdisj & _).
      intros Hin. apply (Hdisj f Hin). left. }
    cbn [names map fst]. rewrite sweep_cons.
    cbn [sweep_outcome]. unfold os_stat.
    destruct (gone_before_stat env f).
    { now rewrite unlink_here. }
    rewrite find_entry_skip, find_entry_head by exact Hf.
    destruct (is_old now rh (st_mtime e)) as [[|]|x]; [| |reflexivity].
    + unfold os_remove. destruct (gone_before_remove env f).
      { now rewrite unlink_here. }
      rewrite find_entry_skip, find_entry_head by exact Hf.
      destruct (node_of e); [reflexivity|].
      rewrite unlink_here by exact Hnd. apply IH.
      unfold names in *. rewrite map_app in *. cbn [map fst] in Hnd.
      apply NoDup_app in Hnd as (H1 & H2 & H3).
      apply NoDup_cons in H3 as [_ H3].
      apply NoDup_app. split_and!; [exact H1| |exact H3].
      intros x Hx Hx'. apply (H2 x Hx). now right.
    + specialize (IH (kept ++ [(f, e)])).
      rewrite <- !app_assoc in IH. cbn [app] in IH.
      fold (names rest). rewrite (IH Hnd).
      destruct (sweep_outcome env now rh rest) as [rest' r].
      now rewrite <- app_assoc.
Qed.

Lemma cleanup_closed_form (env : environment) (self : plugin) (now : Q)
    (w : world) (d : directory) :
  at_metrics_dir w = IsDir d ->
  NoDup (names d) ->
  cleanup_old_logs env self now w
  = let '(d', r) := sweep_outcome env now (retention_hours self) d in
    ({| at_metrics_dir := IsDir d'; logged := logged w |}, r).
Proof.
  intros Hd Hnd. unfold cleanup_old_logs. rewrite Hd.
  pose proof (sweep_closed_form env now (retention_hours self) d [] Hnd) as H.
  cbn [app] in H. rewrite H.
  now destruct (sweep_outcome env now (retention_hours self) d).
Qed.

Lemma Qltb_lt (x y : Q) : Qltb x y = true <-> (x < y)%Q.
Proof.
  unfold Qltb. rewrite negb_true_iff, <- not_true_iff_false, Qle_bool_iff.
  split; intros H; lra.
Qed.

(** The test of the loop, when the threshold is computed without rounding:
    older than the threshold means an age strictly above
    [retention_hours * 3600] seconds. *)
Lemma is_old_spec (now : Q) (rh : Z) (mtime t : Q) :
  threshold now rh = Return t ->
  (t == now - inject_Z (rh * 3600))%Q ->
  is_old now rh mtime = Return true
  <-> (inject_Z (rh * 3600) < now - mtime)%Q.
Proof.
  intros Ht Hexact. unfold is_old. rewrite Ht.
  split.
  - intros [= H]. apply Qltb_lt in H. lra.
  - intros H. f_equal. apply Qltb_lt. lra.
Qed.

Lemma is_old_false (now : Q) (rh : Z) (mtime t : Q) :
  threshold now rh = Return t ->
  (t == now - inject_Z (rh * 3600))%Q ->
  is_old now rh mtime = Return false
  <-> (now - mtime <= inject_Z (rh * 3600))%Q.
Proof.
  intros Ht Hexact. unfold is_old. rewrite Ht.
  destruct (Qltb mtime t) eqn:Hlt.
  - apply Qltb_lt in Hlt. split; [discriminate|intros H; lra].
  - split; [intros _|reflexivity].
    apply not_true_iff_false in Hlt. rewrite Qltb_lt in Hlt. lra.
Qed.

(** What is left is a part of what was there, in the same order. *)
Lemma sweep_outcome_sublist (env : environment) (now : Q) (rh : Z)
    (d : directory) :
  (sweep_outcome env now rh d).1 `sublist_of` d.
Proof.
  induction d as [|[f e] d IH]; [reflexivity|].
  cbn [sweep_outcome].
  destruct (gone_before_stat env f); [now apply sublist_cons|].
  destruct (is_old now rh (st_mtime e)) as [[|]|x]; [| |reflexivity].
  - destruct (gone_before_remove env f); [now apply sublist_cons|].
    destruct (node_of e); [reflexivity|now apply sublist_cons].
  - destruct (sweep_outcome env now rh d) as [d' r]. now apply sublist_skip.
Qed.

Lemma sweep_outcome_NoDup (env : environment) (now : Q) (rh : Z)
    (d : directory) :
  NoDup (names d) -> NoDup (names (sweep_outcome env now rh d).1).
Proof.
  intros Hnd. apply (sublist_NoDup _ (names d)); [exact Hnd|].
  unfold names. apply (fmap_sublist fst), sweep_outcome_sublist.
Qed.

(** A prefix of passable entries that no sibling touches is filtered, and
    the loop goes on with the rest. *)
Lemma sweep_outcome_app (env : environment) (now : Q) (rh : Z)
    (pre rest : directory) :
  Forall (fun p => passable now rh p = true
                   /\ gone_before_stat env p.1 = false
                   /\ gone_before_remove env p.1 = false) pre ->
  sweep_outcome env now rh (pre ++ rest)
  = let '(rest', r) := sweep_outcome env now rh rest in
    (List.filter (fresh now rh) pre ++ rest', r).
Proof.
  induction 1 as [|[f e] pre (Hp & Hs & Hr) _ IH].
  - cbn [app List.filter]. now destruct (sweep_outcome env now rh rest).
  - cbn [app sweep_outcome List.filter]. cbn [fst] in Hs, Hr. rewrite Hs, Hr, IH.
    unfold passable, fresh in *. cbn [snd] in *.
    destruct (is_old now rh (st_mtime e)) as [[|]|x]; [| |discriminate Hp].
    + destruct (node_of e); [discriminate Hp|reflexivity].
    + now destruct (sweep_outcome env now rh rest).
Qed.

(** When the undisturbed loop ends without an error, what is left is exactly
    the entries that are not older than the threshold. *)
Lemma sweep_outcome_return (euid pid : Z) (now : Q) (rh : Z) (d d' : directory) :
  sweep_outcome (quiet euid pid) now rh d = (d', Return tt) ->
  d' = List.filter (fresh now rh) d.
Proof.
  revert d'. induction d as [|[f e] d IH]; intros d' H; cbn [sweep_outcome] in H.
  - now inversion H.
  - cbn [quiet gone_before_stat gone_before_remove] in H.
    cbn [List.filter]. unfold fresh at 1. cbn [snd].
    destruct (is_old now rh (st_mtime e)) as [[|]|x]; [| |discriminate H].
    + destruct (node_of e); [discriminate H|]. now apply IH.
    + destruct (sweep_outcome (quiet euid pid) now rh d) as [d'' r].
      inversion H; subst. f_equal. now apply IH.
Qed.

Lemma find_entry_filter (P : string * dir_entry -> bool) (f : string)
    (e : dir_entry) (d : directory) :
  NoDup (names d) ->
  find_entry f d = Some e ->
  find_entry f (List.filter P d) = if P (f, e) then Some e else None.
Proof.
  induction d as [|[n x] d IH]; intros Hnd Hf; [discriminate Hf|].
  cbn [names map fst] in Hnd. apply NoDup_cons in Hnd as [Hn Hnd].
  cbn [find_entry] in Hf. cbn [List.filter].
  destruct (String.eqb_spec n f) as [->|Hne].
  - inversion Hf; subst x. destruct (P (f, e)).
    + apply find_entry_head.
    + apply find_entry_names. intros Hin. apply Hn.
      unfold names in *. apply list_elem_of_fmap in Hin as ([? ?] & -> & Hin).
      apply list_elem_of_fmap. eexists; split; [reflexivity|].
      apply list_elem_of_In, List.filter_In in Hin as [Hin _].
      now apply list_elem_of_In.
  - destruct (P (n, x)); [|now apply IH].
    cbn [find_entry]. destruct (String.eqb_spec n f); [congruence|now apply IH].
Qed.

(** Whether or not the undisturbed loop runs to its end, an entry that the
    test finds not older than the threshold is still there afterwards. *)
Lemma sweep_outcome_keeps (euid pid : Z) (now : Q) (rh : Z) (f : string)
    (e : dir_entry) (d : directory) :
  find_entry f d = Some e ->
  is_old now rh (st_mtime e) = Return false ->
  find_entry f (sweep_outcome (quiet euid pid) now rh d).1 = Some e.
Proof.
  intros Hf Hfresh. induction d as [|[n x] d IH]; [discriminate Hf|].
  cbn [sweep_outcome quiet gone_before_stat gone_before_remove].
  cbn [find_entry] in Hf.
  destruct (String.eqb_spec n f) as [->|Hne].
  - inversion Hf; subst x. rewrite Hfresh.
    destruct (sweep_outcome (quiet euid pid) now rh d) as [d' r].
    apply find_entry_head.
  - destruct (is_old now rh (st_mtime x)) as [[|]|y].
    + destruct (node_of x); [|now apply IH].
      cbn [fst find_entry]. now destruct (String.eqb_spec n f).
    + specialize (IH Hf).
      destruct (sweep_outcome (quiet euid pid) now rh d) as [d' r].
      cbn [fst find_entry] in *. now destruct (String.eqb_spec n f).
    + cbn [fst find_entry]. now destruct (String.eqb_spec n f).
Qed.

(** C5 (as stated, refuted).  A recent file, a stale subdirectory and a stale
    record: the sweep deletes neither of the two entries whose age is
    strictly above [retention_hours * 3600] seconds.  [os.remove] raises on
    the subdirectory, which ends the sweep; the subdirectory is still there
    and so is the stale record listed after it. *)
Lemma C5_counterexample :
  exists d',
    at_metrics_dir
      (cleanup_old_logs (quiet 0 4242) sample_plugin sample_now mixed_world).1
    = IsDir d'
    /\ (inject_Z (retention_hours sample_plugin * 3600)
        < sample_now - st_mtime (subdirectory 900000))%Q
    /\ find_entry "archive" d' = Some (subdirectory 900000)
    /\ (inject_Z (retention_hours sample_plugin * 3600)
        < sample_now - st_mtime (plain_file 900001))%Q
    /\ find_entry "perfmetrics-900001.0_12.json" d' = Some (plain_file 900001).
Proof.
  exists mixed_directory. repeat split; vm_compute; reflexivity.
Qed.

(** C5 (amended).  The sweep compares an entry's mtime with the float
    [now - retention_hours * 3600]; take that threshold to be computed
    without rounding, as it is at the boundary the claim names.  An entry
    whose age [now - mtime] is at most [retention_hours * 3600] seconds (a
    file exactly that old) is still there, unchanged, after the sweep,
    however the sweep ends.  When the sweep runs to its end without an
    error, an entry is gone afterwards if and only if its age is strictly
    above the threshold (one a second older goes). *)
Theorem C5_sweep_deletes_iff_strictly_older (euid pid : Z) (self : plugin)
    (now : Q) (w : world) (d : directory) (f : string) (e : dir_entry)
    (t : Q) :
  at_metrics_dir w = IsDir d ->
  NoDup (names d) ->
  find_entry f d = Some e ->
  threshold now (retention_hours self) = Return t ->
  (t == now - inject_Z (retention_hours self * 3600))%Q ->
  exists d',
    at_metrics_dir (cleanup_old_logs (quiet euid pid) self now w).1 = IsDir d'
    /\ ((now - st_mtime e <= inject_Z (retention_hours self * 3600))%Q ->
        find_entry f d' = Some e)
    /\ ((cleanup_old_logs (quiet euid pid) self now w).2 = Return tt ->
        (find_entry f d' = None
         <-> (inject_Z (retention_hours self * 3600) < now - st_mtime e)%Q)).
Proof.
  intros Hd Hnd Hf Ht Hexact.
  rewrite (cleanup_closed_form _ _ _ _ _ Hd Hnd).
  pose proof (sweep_outcome_keeps euid pid now (retention_hours self) f e d Hf)
    as Hkeep.
  destruct (sweep_outcome _ _ _ d) as [d' r] eqn:Hout.
  cbn [fst snd at_metrics_dir] in *. exists d'. split; [reflexivity|]. split.
  - intros Hage. apply Hkeep. now apply (is_old_false _ _ _ t Ht Hexact).
  - intros ->. apply sweep_outcome_return in Hout. subst d'.
    rewrite (find_entry_filter _ f e d Hnd Hf). unfold fresh. cbn [snd].
    rewrite <- (is_old_spec _ _ _ t Ht Hexact).
    unfold is_old. rewrite Ht.
    destruct (Qltb (st_mtime e) t); split; congruence.
Qed.

(** On the sample directory: the file exactly four hours old is kept and the
    one a second older is deleted. *)
Lemma C5_witness :
  (exists d',
      at_metrics_dir
        (cleanup_old_logs (quiet 0 4242) sample_plugin sample_now sample_world).1
      = IsDir d'
      /\ find_entry "perfmetrics-985600.0_71.json" d'
         = Some (plain_file (1000000 - 14400)))
  /\ (exists d',
         at_metrics_dir
           (cleanup_old_logs (quiet 0 4242) sample_plugin sample_now sample_world).1
         = IsDir d'
         /\ find_entry "perfmetrics-985599.0_70.json" d' = None).
Proof.
  split.
  - edestruct (C5_sweep_deletes_iff_strictly_older 0 4242 sample_plugin
                 sample_now sample_world sample_directory
                 "perfmetrics-985600.0_71.json" (plain_file (1000000 - 14400)))
      as (d' & Hd' & Hkeep & _).
    + reflexivity.
    + apply (bool_decide_unpack _). vm_compute. reflexivity.
    + vm_compute. reflexivity.
    + vm_compute. reflexivity.
    + vm_compute. reflexivity.
    + exists d'. split; [exact Hd'|]. apply Hkeep. vm_compute. discriminate.
  - edestruct (C5_sweep_deletes_iff_strictly_older 0 4242 sample_plugin
                 sample_now sample_world sample_directory
                 "perfmetrics-985599.0_70.json" (plain_file (1000000 - 14401)))
      as (d' & Hd' & _ & Hgone).
    + reflexivity.
    + apply (bool_decide_unpack _). vm_compute. reflexivity.
    + vm_compute. reflexivity.
    + vm_compute. reflexivity.
    + vm_compute. reflexivity.
    + exists d'. split; [exact Hd'|]. apply Hgone; vm_compute; reflexivity.
Defined.

(** The boundary on the sample directory: the file exactly four hours old
    stays, the one a second older goes. *)
Example sweep_boundary :
  cleanup_old_logs (quiet 0 4242) sample_plugin sample_now sample_world
  = (sample_world_swept, Return tt).
Proof. vm_compute. reflexivity. Qed.

(** The undisturbed loop, run on what it left, changes nothing and ends the
    same way. *)
Lemma sweep_outcome_idem (euid pid : Z) (now : Q) (rh : Z) (d : directory) :
  sweep_outcome (quiet euid pid) now rh (sweep_outcome (quiet euid pid) now rh d).1
  = sweep_outcome (quiet euid pid) now rh d.
Proof.
  induction d as [|[f e] d IH]; [reflexivity|].
  cbn [sweep_outcome quiet gone_before_stat gone_before_remove].
  destruct (is_old now rh (st_mtime e)) as [[|]|x] eqn:Hold.
  - destruct (node_of e) eqn:Hnode; [|exact IH].
    cbn [fst sweep_outcome quiet gone_before_stat gone_before_remove].
    now rewrite Hold, Hnode.
  - cbn [sweep_outcome quiet gone_before_stat gone_before_remove] in IH.
    destruct (sweep_outcome (quiet euid pid) now rh d) as [d' r] eqn:Hout.
    cbn [fst sweep_outcome quiet gone_before_stat gone_before_remove] in *.
    now rewrite Hold, IH.
  - cbn [fst sweep_outcome quiet gone_before_stat gone_before_remove].
    now rewrite Hold.
Qed.

(** C9.  The retention sweep is idempotent: run a second time with the same
    reference time on the directory the first run left, with no file added,
    it deletes nothing (the world is unchanged) and ends as the first run
    did. *)
Theorem C9_sweep_idempotent (euid pid : Z) (self : plugin) (now : Q) (w : world) :
  well_formed w ->
  cleanup_old_logs (quiet euid pid) self now
    (cleanup_old_logs (quiet euid pid) self now w).1
  = cleanup_old_logs (quiet euid pid) self now w.
Proof.
  unfold well_formed. intros Hwf.
  destruct (at_metrics_dir w) as [| |d] eqn:Hd.
  - unfold cleanup_old_logs. rewrite Hd. cbn [fst]. now rewrite Hd.
  - unfold cleanup_old_logs. rewrite Hd. cbn [fst]. now rewrite Hd.
  - rewrite (cleanup_closed_form _ self now w d Hd Hwf).
    pose proof (sweep_outcome_NoDup (quiet euid pid) now (retention_hours self) d Hwf) as Hnd.
    pose proof (sweep_outcome_idem euid pid now (retention_hours self) d) as Hidem.
    destruct (sweep_outcome (quiet euid pid) now (retention_hours self) d)
      as [d' r] eqn:Hout.
    cbn [fst] in *.
    rewrite (cleanup_closed_form _ self now
               {| at_metrics_dir := IsDir d'; logged := logged w |} d' eq_refl Hnd).
    now rewrite Hidem.
Qed.

Lemma C9_witness :
  cleanup_old_logs (quiet 0 4242) sample_plugin sample_now
    (cleanup_old_logs (quiet 0 4242) sample_plugin sample_now mixed_world).1
  = cleanup_old_logs (quiet 0 4242) sample_plugin sample_now mixed_world.
Proof.
  apply (C9_sweep_idempotent 0 4242 sample_plugin sample_now mixed_world).
  unfold well_formed. cbn [mixed_world at_metrics_dir].
  apply (bool_decide_unpack _). vm_compute. reflexivity.
Defined.

Lemma filter_names_absent (P : string * dir_entry -> bool) (f : string)
    (d : directory) :
  f ∉ names d -> f ∉ names (List.filter P d).
Proof.
  unfold names. intros Hf Hin. apply Hf.
  apply list_elem_of_fmap in Hin as (p & -> & Hin).
  apply list_elem_of_fmap. exists p. split; [reflexivity|].
  apply list_elem_of_In. apply list_elem_of_In, List.filter_In in Hin. tauto.
Qed.

(** C10.  The sweep looks at neither the name nor the kind of an entry: when
    it reaches an entry older than the threshold (the entries before it
    being files or recent), a file of any name is removed, and a
    subdirectory makes [os.remove] raise [IsADirectoryError], which ends the
    sweep there: the subdirectory and every entry after it are left as they
    were. *)
Theorem C10_sweep_unfiltered_and_directory_aborts (euid pid : Z) (self : plugin)
    (now : Q) (w : world) (pre suf : directory) (f : string) (e : dir_entry) :
  at_metrics_dir w = IsDir (pre ++ (f, e) :: suf) ->
  NoDup (names (pre ++ (f, e) :: suf)) ->
  Forall (fun p => passable now (retention_hours self) p = true) pre ->
  is_old now (retention_hours self) (st_mtime e) = Return true ->
  match node_of e with
  | File _ =>
      exists d' r,
        cleanup_old_logs (quiet euid pid) self now w
        = ({| at_metrics_dir := IsDir d'; logged := logged w |}, r)
        /\ find_entry f d' = None
  | Dir =>
      cleanup_old_logs (quiet euid pid) self now w
      = ({| at_metrics_dir :=
              IsDir (List.filter (fresh now (retention_hours self)) pre
                     ++ (f, e) :: suf);
            logged := logged w |},
         Raise IsADirectoryError)
  end.
Proof.
  intros Hd Hnd Hpre Hold.
  rewrite (cleanup_closed_form _ self now w _ Hd Hnd).
  rewrite sweep_outcome_app.
  2:{ eapply Forall_impl; [exact Hpre|]. intros p Hp. now split. }
  cbn [sweep_outcome quiet gone_before_stat gone_before_remove]. rewrite Hold.
  destruct (node_of e) eqn:Hnode; [reflexivity|].
  destruct (sweep_outcome (quiet euid pid) now (retention_hours self) suf)
    as [suf' r] eqn:Hout.
  exists (List.filter (fresh now (retention_hours self)) pre ++ suf'), r.
  split; [reflexivity|].
  unfold names in Hnd. rewrite map_app in Hnd. cbn [map fst] in Hnd.
  apply NoDup_app in Hnd as (_ & Hdisj & Hnd).
  apply NoDup_cons in Hnd as [Hf _].
  apply find_entry_names. unfold names. rewrite map_app.
  apply not_elem_of_app. split.
  - apply filter_names_absent. intros Hin. apply (Hdisj f Hin). left.
  - intros Hin. apply Hf.
    pose proof (sweep_outcome_sublist (quiet euid pid) now (retention_hours self) suf) as Hsub.
    rewrite Hout in Hsub. cbn [fst] in Hsub.
    eapply elem_of_sublist; [exact Hin|apply (fmap_sublist fst), Hsub].
Qed.

Lemma C10_witness :
  cleanup_old_logs (quiet 0 4242) sample_plugin sample_now mixed_world
  = ({| at_metrics_dir := IsDir mixed_directory; logged := [] |},
     Raise IsADirectoryError).
Proof.
  apply (C10_sweep_unfiltered_and_directory_aborts 0 4242 sample_plugin
           sample_now mixed_world
           [("perfmetrics-999990.5_72.json", plain_file 999990)]
           [("perfmetrics-900001.0_12.json", plain_file 900001)]
           "archive" (subdirectory 900000)).
  - reflexivity.
  - apply (bool_decide_unpack _). vm_compute. reflexivity.
  - repeat constructor.
  - vm_compute. reflexivity.
Defined.

(** C4 (as stated, refuted).  Two stale records; a sibling sweeper deletes
    the first between this process's [os.stat] and [os.remove].  The sweep
    does not go on: [FileNotFoundError] comes out of [cleanup_old_logs], and
    the second stale record is still there. *)
Lemma C4_counterexample :
  cleanup_old_logs sibling_wins_remove sample_plugin sample_now stale_world
  = ({| at_metrics_dir :=
          IsDir [("perfmetrics-900001.0_12.json", plain_file 900001)];
        logged := [] |},
     Raise FileNotFoundError)
  /\ (cleanup_old_logs sibling_wins_remove sample_plugin sample_now stale_world).2
     <> Return tt.
Proof. split; [vm_compute; reflexivity|vm_compute; discriminate]. Qed.

(** The same when the sibling is faster still, and the file is gone before
    [os.stat]. *)
Example sweep_race_at_stat :
  cleanup_old_logs sibling_wins_stat sample_plugin sample_now stale_world
  = ({| at_metrics_dir :=
          IsDir [("perfmetrics-900001.0_12.json", plain_file 900001)];
        logged := [] |},
     Raise FileNotFoundError).
Proof. vm_compute. reflexivity. Qed.

(** C4 (amended).  When the sweep reaches an entry that a sibling process
    has deleted, either before [os.stat] or, for an entry older than the
    threshold, before [os.remove], the call raises [FileNotFoundError] and
    [cleanup_old_logs] lets it through: the sweep ends at that entry with
    the error, the entries before it have been dealt with, and those after
    it are left as they were. *)
Theorem C4_sweep_aborts_on_vanished_entry (env : environment) (self : plugin)
    (now : Q) (w : world) (pre suf : directory) (f : string) (e : dir_entry) :
  at_metrics_dir w = IsDir (pre ++ (f, e) :: suf) ->
  NoDup (names (pre ++ (f, e) :: suf)) ->
  Forall (fun p => passable now (retention_hours self) p = true
                   /\ gone_before_stat env p.1 = false
                   /\ gone_before_remove env p.1 = false) pre ->
  gone_before_stat env f = true
  \/ (is_old now (retention_hours self) (st_mtime e) = Return true
      /\ gone_before_remove env f = true) ->
  cleanup_old_logs env self now w
  = ({| at_metrics_dir :=
          IsDir (List.filter (fresh now (retention_hours self)) pre ++ suf);
        logged := logged w |},
     Raise FileNotFoundError).
Proof.
  intros Hd Hnd Hpre Hgone.
  rewrite (cleanup_closed_form _ self now w _ Hd Hnd).
  rewrite (sweep_outcome_app _ _ _ _ _ Hpre).
  cbn [sweep_outcome].
  destruct (gone_before_stat env f); [reflexivity|].
  destruct Hgone as [Hgone|[Hold Hgone]]; [discriminate Hgone|].
  now rewrite Hold, Hgone.
Qed.

Lemma C4_witness :
  cleanup_old_logs sibling_wins_remove sample_plugin sample_now stale_world
  = ({| at_metrics_dir :=
          IsDir [("perfmetrics-900001.0_12.json", plain_file 900001)];
        logged := [] |},
     Raise FileNotFoundError).
Proof.
  apply (C4_sweep_aborts_on_vanished_entry sibling_wins_remove sample_plugin
           sample_now stale_world []
           [("perfmetrics-900001.0_12.json", plain_file 900001)]
           "perfmetrics-900000.0_11.json" (plain_file 900000)).
  - reflexivity.
  - apply (bool_decide_unpack _). vm_compute. reflexivity.
  - constructor.
  - right. split; vm_compute; reflexivity.
Defined.

(** ** The result writer *)

(** [open] and the writes raise what the environment makes them raise, or an
    [OSError] of their own. *)
Lemma open_and_write_raises (float_repr : Q -> string) (env : environment)
    (self : plugin) (now : Q) (st st' : path_state) (e : exn) :
  open_and_write float_repr env self now st = (st', Raise e) ->
  open_error env = Some e \/ write_error env = Some e \/ is_OSError e = true.
Proof.
  unfold open_and_write.
  destruct (open_error env) as [e1|]; [intros [= _ ->]; now left|].
  destruct st as [| |d]; [intros [= _ <-]; auto..|].
  destruct (node_of <$> find_entry _ d) as [[|c]|];
    [intros [= _ <-]; auto|..];
    (destruct (write_error env) as [e2|]; [intros [= _ ->]; auto|discriminate]).
Qed.

(** Once the directory is there, a failure to open or to write the file is
    caught: [write_results] returns, and each such failure leaves one error
    record that carries the path of the file. *)
Lemma write_results_catches_io (float_repr : Q -> string) (env : environment)
    (self : plugin) (now : Q) (w : world) :
  at_metrics_dir w <> Absent \/ makedirs_error env = None ->
  (forall e, open_error env = Some e -> is_OSError e = true) ->
  (forall e, write_error env = Some e -> is_OSError e = true) ->
  (write_results float_repr env self now w).2 = Return tt
  /\ (logged (write_results float_repr env self now w).1 = logged w
      \/ logged (write_results float_repr env self now w).1
         = logged w
           ++ [{| levelname := "ERROR";
                  msg_format := "Error writing performance metrics to file %s";
                  msg_arg := os_path_join (metrics_dir self)
                               (record_name float_repr env now) |}]).
Proof.
  intros Hdir Hopen Hwrite. unfold write_results.
  set (made := match at_metrics_dir w with
               | Absent => match makedirs_error env with
                           | Some e => Raise e
                           | None => Return (IsDir [])
                           end
               | st => Return st
               end).
  assert (Hmade : exists st, made = Return st).
  { subst made. destruct (at_metrics_dir w); eauto.
    destruct Hdir as [Hdir|Hdir]; [congruence|]. rewrite Hdir. eauto. }
  destruct Hmade as [st ->].
  destruct (open_and_write float_repr env self now st) as [st' [[]|e]] eqn:How.
  - cbn [fst snd logged]. auto.
  - assert (He : is_OSError e = true).
    { destruct (open_and_write_raises _ _ _ _ _ _ _ How) as [H|[H|H]]; auto. }
    rewrite He. cbn [fst snd logged]. auto.
Qed.

Example write_results_disk_full :
  write_results sample_float_repr disk_full sample_plugin sample_now sample_world
  = ({| at_metrics_dir :=
          IsDir (sample_directory
                 ++ [("perfmetrics-1000000.25_4242.json", plain_file sample_now)]);
        logged :=
          [{| levelname := "ERROR";
              msg_format := "Error writing performance metrics to file %s";
              msg_arg :=
                "/var/log/dnf/perfmetrics/perfmetrics-1000000.25_4242.json" |}] |},
     Return tt).
Proof. vm_compute. reflexivity. Qed.

(** A failure of [os.makedirs] comes out of [write_results] as it is, and
    nothing is logged. *)
Lemma write_results_makedirs_raises (float_repr : Q -> string)
    (env : environment) (self : plugin) (now : Q) (w : world) (e : exn) :
  at_metrics_dir w = Absent ->
  makedirs_error env = Some e ->
  write_results float_repr env self now w = (w, Raise e).
Proof. intros Hd He. unfold write_results. now rewrite Hd, He. Qed.

(** C3 (code defect).  The claim: every failure of the persistence phase,
    the creation of the directory included, is caught by [write_results],
    logged with the path, and not propagated.  The code: [os.makedirs] is
    called before the [try]; when the directory is missing and cannot be
    created, the error leaves [write_results] and nothing is logged. *)
Theorem C3_makedirs_failure_propagates (float_repr : Q -> string) :
  write_results float_repr read_only_file_system sample_plugin sample_now
    missing_world
  = (missing_world, Raise (OSError 30))
  /\ logged (write_results float_repr read_only_file_system sample_plugin
               sample_now missing_world).1 = [].
Proof. split; reflexivity. Qed.

(** ** The transaction hook *)

(** C6.  When the effective user id is not 0 at transaction-complete (the
    hook runs after [pre_transaction], which has set the start time), the
    write and cleanup phase is skipped without a trace: the metrics
    directory is as it was (no file is created), nothing is logged, no
    exception is raised and the hook returns normally; only the plugin's own
    record has gained the transaction time. *)
Theorem C6_unprivileged_transaction_is_silent (float_repr : Q -> string)
    (env : environment) (self : plugin) (t0 now now_w now_c : Q) (w : world) :
  transaction_start_time self = Some t0 ->
  geteuid env <> 0 ->
  transaction float_repr env self now now_w now_c w
  = (set_metric self "full_transaction_time"
       (MInt (py_int_of_float ((now - t0) * inject_Z 1000))),
     w, Return tt).
Proof.
  intros Hstart Heuid. unfold transaction. rewrite Hstart.
  destruct (Z.eqb_spec (geteuid env) 0) as [H0|_]; [contradiction|].
  reflexivity.
Qed.

Lemma C6_witness :
  transaction sample_float_repr (quiet 1000 4242)
    (pre_transaction sample_plugin sample_members 999990) sample_now
    sample_now sample_now sample_world
  = (set_metric (pre_transaction sample_plugin sample_members 999990)
       "full_transaction_time"
       (MInt (py_int_of_float ((sample_now - 999990) * inject_Z 1000))),
     sample_world, Return tt).
Proof.
  apply (C6_unprivileged_transaction_is_silent sample_float_repr
           (quiet 1000 4242)
           (pre_transaction sample_plugin sample_members 999990) 999990).
  - reflexivity.
  - vm_compute. discriminate.
Defined.

(** The hook before [pre_transaction] has run: the start time is missing. *)
Example transaction_without_start :
  (transaction sample_float_repr (quiet 1000 4242) sample_plugin sample_now
     sample_now sample_now sample_world).2 = Raise AttributeError.
Proof. reflexivity. Qed.

Example transaction_time_value :
  py_int_of_float ((sample_now - 999990) * inject_Z 1000) = 10000.
Proof. reflexivity. Qed.

(** As root the record is written and the sweep runs. *)
Example privileged_transaction :
  (transaction sample_float_repr (quiet 0 4242)
     (pre_transaction sample_plugin sample_members 999990) sample_now
     sample_now sample_now sample_world).1.2
  = {| at_metrics_dir :=
         IsDir [ ("perfmetrics-985600.0_71.json", plain_file (1000000 - 14400));
                 ("perfmetrics-999990.5_72.json", plain_file 999990);
                 ("perfmetrics-1000000.25_4242.json",
                  {| node_of :=
                       File (Some (time_metrics
                                     (set_metric
                                        (pre_transaction sample_plugin
                                           sample_members 999990)
                                        "full_transaction_time" (MInt 10000))));
                     st_mtime := sample_now |}) ];
       logged := [] |}.
Proof. vm_compute. reflexivity. Qed.

(** ** Configuration *)

Lemma has_section_lookup (cp : config_parser) (sec : string) :
  has_section cp sec = true <-> is_Some (cp !! sec).
Proof. unfold has_section. apply bool_decide_eq_true. Qed.

Lemma has_option_lookup (cp : config_parser) (sec opt : string)
    (o : gmap string string) :
  cp !! sec = Some o ->
  has_option cp sec opt = match o !! opt with Some _ => true | None => false end.
Proof.
  intros Hsec. unfold has_option. rewrite Hsec.
  destruct (o !! opt) eqn:Ho.
  - apply bool_decide_eq_true. eauto.
  - apply bool_decide_eq_false. intros [? ?]. congruence.
Qed.

Lemma get_lookup (cp : config_parser) (sec opt : string)
    (o : gmap string string) (v : string) :
  cp !! sec = Some o -> o !! opt = Some v -> get cp sec opt = v.
Proof. intros Hsec Hv. unfold get. now rewrite Hsec, Hv. Qed.

(** C7.  The plugin starts with [metrics_dir = /var/log/dnf/perfmetrics] and
    [retention_hours = 4].  At configuration load a [retention_hours] value
    that is present and that [int] cannot parse makes [config] raise
    ([ValueError]), with no fallback; a missing [main] section leaves the
    plugin untouched, a missing [retention_hours] key leaves 4 in place and
    [config] returns normally, and a missing [metrics_dir] key leaves the
    default directory in place. *)
Theorem C7_config_defaults_and_malformed_value (now : Q) (proc_name : string)
    (parents argv : list string) (cp : config_parser) :
  let self := init now proc_name parents argv in
  (metrics_dir self = "/var/log/dnf/perfmetrics" /\ retention_hours self = 4)
  /\ (forall sec v,
         cp !! "main" = Some sec ->
         sec !! "retention_hours" = Some v ->
         raises (py_int v) = true ->
         (config self cp).2 = Raise ValueError)
  /\ (cp !! "main" = None -> config self cp = (self, Return tt))
  /\ (forall sec,
         cp !! "main" = Some sec ->
         sec !! "retention_hours" = None ->
         (config self cp).2 = Return tt
         /\ retention_hours (config self cp).1 = 4)
  /\ (forall sec,
         cp !! "main" = Some sec ->
         sec !! "metrics_dir" = None ->
         metrics_dir (config self cp).1 = "/var/log/dnf/perfmetrics").
Proof.
  intros self. split; [split; reflexivity|]. split; [|split; [|split]].
  - intros sec v Hsec Hv Hbad. unfold config.
    replace (has_section cp "main") with true
      by (symmetry; apply has_section_lookup; rewrite Hsec; eauto).
    rewrite (has_option_lookup cp "main" "metrics_dir" sec Hsec),
      (has_option_lookup cp "main" "retention_hours" sec Hsec), Hv.
    rewrite (get_lookup cp "main" "retention_hours" sec v Hsec Hv).
    destruct (py_int v) as [z|e] eqn:Hint; [discriminate Hbad|].
    now rewrite (py_int_raises v e Hint).
  - intros Hsec. unfold config.
    replace (has_section cp "main") with false; [reflexivity|].
    symmetry. apply not_true_iff_false. rewrite has_section_lookup, Hsec.
    intros [? ?]. discriminate.
  - intros sec Hsec Hnone. unfold config.
    replace (has_section cp "main") with true
      by (symmetry; apply has_section_lookup; rewrite Hsec; eauto).
    rewrite (has_option_lookup cp "main" "metrics_dir" sec Hsec),
      (has_option_lookup cp "main" "retention_hours" sec Hsec), Hnone.
    destruct (sec !! "metrics_dir"); split; reflexivity.
  - intros sec Hsec Hnone. unfold config.
    replace (has_section cp "main") with true
      by (symmetry; apply has_section_lookup; rewrite Hsec; eauto).
    rewrite (has_option_lookup cp "main" "metrics_dir" sec Hsec),
      (has_option_lookup cp "main" "retention_hours" sec Hsec), Hnone.
    destruct (sec !! "retention_hours") as [v|]; [|reflexivity].
    destruct (py_int _); reflexivity.
Qed.

Lemma C7_witness :
  (config sample_plugin config_abc).2 = Raise ValueError
  /\ config sample_plugin config_other_section = (sample_plugin, Return tt).
Proof.
  split.
  - apply (C7_config_defaults_and_malformed_value 999000 "dnf"
             ["bash"; "sshd"; "systemd"] ["/usr/bin/dnf"; "install"; "vim"]
             config_abc)
      with (sec := {[ "retention_hours" := "abc" ]}) (v := "abc");
      vm_compute; reflexivity.
  - apply (C7_config_defaults_and_malformed_value 999000 "dnf"
             ["bash"; "sshd"; "systemd"] ["/usr/bin/dnf"; "install"; "vim"]
             config_other_section).
    vm_compute. reflexivity.
Defined.

Example config_well_formed :
  config sample_plugin
    {[ "main" := {[ "retention_hours" := " 12 "; "metrics_dir" := "/tmp/m" ]} ]}
  = (set_retention_hours (set_metrics_dir sample_plugin "/tmp/m") 12, Return tt).
Proof. vm_compute. reflexivity. Qed.

(** What [int] strips and what it does not: a no-break space (U+00A0) around
    the digits is blank, the separator U+001C is not. *)
Example py_int_no_break_space :
  py_int (String "160" ("4" ++ String "133" "")) = Return 4.
Proof. vm_compute. reflexivity. Qed.

Example py_int_file_separator : py_int (String "028" "4") = Raise ValueError.
Proof. vm_compute. reflexivity. Qed.

Example config_file_separator :
  config sample_plugin {[ "main" := {[ "retention_hours" := String "028" "4" ]} ]}
  = (sample_plugin, Raise ValueError).
Proof. vm_compute. reflexivity. Qed.

(** ** The second pass, whatever the order of the listing *)

Lemma find_entry_elem_of (f : string) (e : dir_entry) (d : directory) :
  find_entry f d = Some e -> (f, e) ∈ d.
Proof.
  induction d as [|[n x] d IH]; [discriminate|].
  cbn [find_entry]. destruct (String.eqb_spec n f) as [->|_].
  - intros [= ->]. left.
  - intros H. right. now apply IH.
Qed.

(** A loop that finds nothing older than the threshold deletes nothing,
    in whatever order the names come. *)
Lemma sweep_nothing_old (euid pid : Z) (now : Q) (rh : Z) (d : directory)
    (listing : list string) :
  Forall (fun p => fresh now rh p = true) d ->
  Forall (fun f => f ∈ names d) listing ->
  sweep (quiet euid pid) now rh listing d = (d, Return tt).
Proof.
  intros Hfresh. induction 1 as [|f listing Hf _ IH]; [reflexivity|].
  rewrite sweep_cons. unfold os_stat. cbn [quiet gone_before_stat].
  destruct (find_entry f d) as [e|] eqn:He.
  - apply find_entry_elem_of in He.
    rewrite Forall_forall in Hfresh. specialize (Hfresh _ He).
    unfold fresh in Hfresh. cbn [snd] in Hfresh.
    destruct (is_old now rh (st_mtime e)) as [[|]|x];
      [discriminate Hfresh|exact IH|discriminate Hfresh].
  - apply find_entry_names in He. contradiction.
Qed.

(** After a sweep that ended without an error, a second sweep with the same
    reference time deletes nothing, in whatever order the directory is
    listed. *)
Lemma sweep_again_any_order (euid pid : Z) (self : plugin) (now : Q)
    (w w' : world) (d d' : directory) (listing : list string) :
  at_metrics_dir w = IsDir d ->
  NoDup (names d) ->
  cleanup_old_logs (quiet euid pid) self now w = (w', Return tt) ->
  at_metrics_dir w' = IsDir d' ->
  listing ≡ₚ names d' ->
  sweep (quiet euid pid) now (retention_hours self) listing d' = (d', Return tt).
Proof.
  intros Hd Hnd Hrun Hd' Hperm.
  rewrite (cleanup_closed_form _ _ _ _ _ Hd Hnd) in Hrun.
  destruct (sweep_outcome _ _ _ d) as [d1 r] eqn:Hout.
  inversion Hrun; subst w' r. cbn [at_metrics_dir] in Hd'.
  inversion Hd'; subst d1.
  apply sweep_outcome_return in Hout.
  apply sweep_nothing_old.
  - rewrite Hout. apply Forall_forall. intros p Hp.
    apply list_elem_of_In, List.filter_In in Hp. tauto.
  - apply Forall_forall. intros f Hf. now rewrite <- Hperm.
Qed.

(** * Further properties of the code *)

Local Open Scope string_scope.

(** ** What the pattern accepts *)

Lemma strip_prefix_sound (l s s' : string) :
  strip_prefix l s = Some s' -> s = l ++ s'.
Proof.
  revert s. induction l as [|a l IH]; intros s H; cbn [strip_prefix] in H.
  - now inversion H.
  - destruct s as [|b s]; [discriminate H|].
    destruct (Ascii.eqb_spec a b) as [->|_]; [|discriminate H].
    change (String b s = String b (l ++ s')). f_equal. now apply IH.
Qed.

(** Whatever the repetition hands to its continuation is what follows a run
    of characters of the set. *)
Lemma star_sound {A} (p : ascii -> bool) (s : string)
    (k : nat -> string -> option A) (r : A) :
  forall pos,
    star p pos s k = Some r ->
    exists e t,
      s = e ++ t /\ all_chars p e = true
      /\ k (pos + String.length e)%nat t = Some r.
Proof.
  induction s as [|c s IH]; intros pos H; cbn [star] in H.
  - exists "", "". rewrite Nat.add_0_r. auto.
  - destruct (p c) eqn:Hc.
    + destruct (star p (S pos) s k) as [r'|] eqn:Hrest.
      * inversion H; subst r'. destruct (IH _ Hrest) as (e & t & -> & He & Hk).
        exists (String c e), t. cbn [all_chars String.length]. rewrite Hc, He.
        rewrite <- Nat.add_succ_comm. auto.
      * exists "", (String c s). rewrite Nat.add_0_r. auto.
    + exists "", (String c s). rewrite Nat.add_0_r. auto.
Qed.

(** What the pattern accepts has the shape of a timer message. *)
Lemma fullmatch_timer_sound (s : string) (m : captures) :
  fullmatch MetricsFilter.TIME_PATTERN s = Some m ->
  exists ev ms,
        s = timer_message ev ms
        /\ all_chars MetricsFilter.dot ev = true
        /\ ms <> ""
        /\ all_chars MetricsFilter.digit_or_dot ms = true
        /\ m = [("millisecs", ms); ("event", ev)].
Proof.
  unfold fullmatch, MetricsFilter.TIME_PATTERN. cbn [rmatch Nat.eqb].
  {
    destruct (strip_prefix "timer: " s) as [s1|] eqn:H1; [|discriminate].
    apply strip_prefix_sound in H1. subst s.
    intros H. apply star_sound in H as (ev & t & -> & Hev & H).
    destruct (strip_prefix ": " t) as [s2|] eqn:H2; [|discriminate H].
    apply strip_prefix_sound in H2. subst t.
    destruct s2 as [|c s3]; [discriminate H|].
    destruct (MetricsFilter.digit_or_dot c) eqn:Hc; [|discriminate H].
    apply star_sound in H as (e2 & t2 & -> & He2 & H).
    destruct (strip_prefix " ms" t2) as [s4|] eqn:H4; [|discriminate H].
    apply strip_prefix_sound in H4. subst t2.
    destruct s4 as [|? ?]; [|destruct (at_eol _); discriminate H].
    cbn [at_eol] in H. inversion H; subst m. clear H.
    exists ev, (String c e2). unfold timer_message.
    split; [reflexivity|]. split; [exact Hev|]. split; [discriminate|].
    split; [cbn [all_chars]; now rewrite Hc, He2|].
    replace (S (String.length ev + 2 + String.length e2)
             - (String.length ev + 2))%nat
      with (S (String.length e2)) by lia.
    rewrite Nat.sub_0_r, !substring_app_prefix. reflexivity. }
Qed.

(** The pattern matches exactly the texts [timer: <event>: <number> ms] where
    the event has no newline and the number is a non-empty run of digits
    and dots, with nothing before or after (a trailing newline included);
    the groups are then the event and the number. *)
Theorem fullmatch_timer_iff (s : string) (m : captures) :
  fullmatch MetricsFilter.TIME_PATTERN s = Some m
  <-> exists ev ms,
        s = timer_message ev ms
        /\ all_chars MetricsFilter.dot ev = true
        /\ ms <> ""
        /\ all_chars MetricsFilter.digit_or_dot ms = true
        /\ m = [("millisecs", ms); ("event", ev)].
Proof.
  split.
  - apply fullmatch_timer_sound.
  - intros (ev & ms & -> & Hev & Hne & Hms & ->). now apply fullmatch_timer.
Qed.

(** ** [int] undoes [str] on integers *)

Lemma uint_chars_digits (d : Decimal.uint) :
  all_chars is_digit (NilEmpty.string_of_uint d) = true.
Proof. induction d; cbn [NilEmpty.string_of_uint all_chars]; auto. Qed.

Lemma digits_value_acc (d : Decimal.uint) :
  forall p,
    digits_value (Zpos p) (list_ascii_of_string (NilEmpty.string_of_uint d))
    = Zpos (Pos.of_uint_acc d p).
Proof.
  induction d; intros p;
    cbn [NilEmpty.string_of_uint list_ascii_of_string digits_value Pos.of_uint_acc];
    [reflexivity|..];
    (match goal with
     | |- context [is_digit ?c] => change (is_digit c) with true; cbv iota
     end;
     match goal with
     | |- digits_value ?a _ = Zpos (Pos.of_uint_acc _ ?q) =>
         replace a with (Zpos q) by (unfold digit_value; cbn; lia)
     end; apply IHd).
Qed.

Lemma digits_value_uint (d : Decimal.uint) :
  digits_value 0 (list_ascii_of_string (NilEmpty.string_of_uint d))
  = Z.of_N (Pos.of_uint d).
Proof.
  induction d;
    cbn [NilEmpty.string_of_uint list_ascii_of_string digits_value Pos.of_uint];
    [reflexivity|exact IHd|..];
    (match goal with
     | |- context [is_digit ?c] => change (is_digit c) with true; cbv iota
     end;
     match goal with
     | |- digits_value ?a _ = Z.of_N (Npos (Pos.of_uint_acc _ ?q)) =>
         change a with (Zpos q)
     end; apply digits_value_acc).
Qed.

Lemma py_int_pos (p : positive) :
  py_int (NilZero.string_of_uint (Pos.to_uint p)) = Return (Zpos p).
Proof.
  pose proof (DecimalPos.Unsigned.to_uint_nonnil p) as Hnn.
  pose proof (DecimalPos.Unsigned.of_to p) as Hof.
  assert (Hs : NilZero.string_of_uint (Pos.to_uint p)
               = NilEmpty.string_of_uint (Pos.to_uint p)).
  { destruct (Pos.to_uint p); [congruence|reflexivity..]. }
  rewrite Hs, py_int_digits_only.
  - now rewrite digits_value_uint, Hof.
  - destruct (Pos.to_uint p); [congruence|discriminate..].
  - apply uint_chars_digits.
Qed.

(** For every integer [z], [int(str(z))] is [z]. *)
Lemma py_int_py_str (z : Z) : py_int (py_str (PyInt z)) = Return z.
Proof.
  destruct z as [|p|p]; cbn [py_str Z.to_int NilZero.string_of_int].
  - reflexivity.
  - apply py_int_pos.
  - pose proof (py_int_pos p) as Hp. unfold py_int in *.
    assert (Hd : all_chars MetricsFilter.digit_or_dot
                   (NilZero.string_of_uint (Pos.to_uint p)) = true).
    { pose proof (DecimalPos.Unsigned.to_uint_nonnil p) as Hnn.
      apply (all_chars_impl is_digit).
      - intros c Hc. unfold MetricsFilter.digit_or_dot. now rewrite Hc.
      - destruct (Pos.to_uint p) eqn:E; [congruence|..];
          rewrite <- E; unfold NilZero.string_of_uint; rewrite E;
          apply (uint_chars_digits (_ _)). }
    apply all_chars_Forall in Hd.
    assert (Hns : Forall (fun c => is_py_space c = false)
                    (list_ascii_of_string (NilZero.string_of_uint (Pos.to_uint p)))).
    { eapply Forall_impl; [exact Hd|]. intros c. apply digit_or_dot_not_space. }
    rewrite strip_id in Hp by exact Hns.
    cbn [list_ascii_of_string]. rewrite strip_id by (constructor; [reflexivity|exact Hns]).
    rewrite Ascii.eqb_refl.
    destruct (list_ascii_of_string (NilZero.string_of_uint (Pos.to_uint p)))
      as [|c l]; [discriminate Hp|].
    inversion Hd as [|? ? Hc _]; subst.
    destruct (Ascii.eqb_spec c "-") as [->|_]; [discriminate Hc|].
    destruct (Ascii.eqb_spec c "+") as [->|_]; [discriminate Hc|].
    now rewrite Hp.
Qed.

(** ** What the filter does to the dictionary *)

Lemma str_nonneg_digits (n : Z) :
  0 <= n ->
  py_str (PyInt n) <> "" /\ all_chars is_digit (py_str (PyInt n)) = true.
Proof.
  intros Hn. destruct n as [|p|p]; [split; [discriminate|reflexivity]| |lia].
  cbn [py_str Z.to_int NilZero.string_of_int].
  pose proof (DecimalPos.Unsigned.to_uint_nonnil p) as Hnn.
  destruct (Pos.to_uint p) eqn:E; [congruence|..];
    (split; [discriminate|]);
    unfold NilZero.string_of_uint; apply (uint_chars_digits (_ _)).
Qed.

(** The digits Python prints for a non-negative integer read back as that
    integer. *)
Lemma digits_value_py_str (n : Z) :
  0 <= n -> digits_value 0 (list_ascii_of_string (py_str (PyInt n))) = n.
Proof.
  intros Hn. destruct (str_nonneg_digits n Hn) as [Hne Hdig].
  pose proof (py_int_py_str n) as Hint.
  rewrite (py_int_digits_only _ Hne Hdig) in Hint. congruence.
Qed.

(** A timer message that carries a non-negative integer as Python prints it
    makes the filter store that very integer under the event's key, spaces
    turned into underscores, and return [False]. *)
Theorem filter_stores_printed_number (d : gmap string metric_value)
    (ev : string) (n : Z) :
  all_chars MetricsFilter.dot ev = true ->
  0 <= n ->
  MetricsFilter.filter d (PyStr (timer_message ev (py_str (PyInt n))))
  = (<[str_replace " " "_" ev ++ "_time" := MInt n]> d, Return false).
Proof.
  intros Hev Hn. destruct (str_nonneg_digits n Hn) as [Hne Hdig].
  rewrite (filter_integer_stores d ev _ Hev Hne Hdig).
  now rewrite (digits_value_py_str n Hn).
Qed.

Lemma filter_stores_printed_number_witness :
  MetricsFilter.filter ∅ (PyStr (timer_message "rpm transaction" (py_str (PyInt 1290))))
  = (<[str_replace " " "_" "rpm transaction" ++ "_time" := MInt 1290]> ∅,
     Return false).
Proof.
  apply (filter_stores_printed_number ∅ "rpm transaction" 1290).
  - reflexivity.
  - lia.
Defined.

Lemma digit_value_nonneg (c : ascii) : is_digit c = true -> 0 <= digit_value c.
Proof.
  unfold is_digit, digit_value. intros [H _]%andb_true_iff.
  apply N.leb_le in H. lia.
Qed.

Lemma digits_value_nonneg (s : list ascii) :
  forall acc, 0 <= acc -> 0 <= digits_value acc s.
Proof.
  induction s as [|c s IH]; intros acc Hacc; cbn [digits_value]; [exact Hacc|].
  destruct (is_digit c) eqn:Hc; [|now apply IH].
  apply IH. pose proof (digit_value_nonneg c Hc). lia.
Qed.

(** The number group never carries a sign, so what [int] makes of it is not
    negative. *)
Lemma py_int_number_nonneg (ms : string) (v : Z) :
  all_chars MetricsFilter.digit_or_dot ms = true ->
  py_int ms = Return v -> 0 <= v.
Proof.
  intros Hms. unfold py_int.
  rewrite strip_id.
  2:{ eapply Forall_impl; [apply all_chars_Forall, Hms|].
      intros c. apply digit_or_dot_not_space. }
  pose proof (all_chars_Forall _ _ Hms) as Hall.
  destruct (list_ascii_of_string ms) as [|c s]; [discriminate|].
  destruct (Ascii.eqb_spec c "-") as [->|_].
  { inversion Hall; subst. discriminate. }
  destruct (Ascii.eqb_spec c "+") as [->|_].
  { inversion Hall; subst. discriminate. }
  unfold py_int_digits. destruct (digits_ok false (c :: s)); [|discriminate].
  intros [= <-]. apply (digits_value_nonneg (c :: s) 0). lia.
Qed.

Lemma str_replace_no_space (s : string) :
  has_char " " (str_replace " " "_" s) = false.
Proof.
  induction s as [|c s IH]; [reflexivity|].
  cbn [str_replace has_char]. rewrite IH, orb_false_r.
  destruct (Ascii.eqb_spec c " ") as [->|Hne]; [reflexivity|].
  now apply Ascii.eqb_neq.
Qed.

(** One call of the filter does one of three things: nothing (it returns
    [False]), nothing but raise [ValueError], or set exactly one key, made of
    a text without spaces followed by [_time], to a non-negative integer
    (and return [False]).  It never returns [True] and never removes a
    key. *)
Theorem filter_effect (d : gmap string metric_value) (msg : py_value) :
  MetricsFilter.filter d msg = (d, Return false)
  \/ MetricsFilter.filter d msg = (d, Raise ValueError)
  \/ exists s v,
       has_char " " s = false /\ 0 <= v
       /\ MetricsFilter.filter d msg = (<[s ++ "_time" := MInt v]> d, Return false).
Proof.
  unfold MetricsFilter.filter.
  destruct (fullmatch _ _) as [m|] eqn:Hm; [|now left].
  apply fullmatch_timer_sound in Hm as (ev & ms & _ & _ & _ & Hms & ->).
  cbn [group String.eqb Ascii.eqb Bool.eqb].
  destruct (py_int ms) as [v|e] eqn:Hint.
  - right. right. exists (str_replace " " "_" ev), v.
    split; [apply str_replace_no_space|].
    split; [exact (py_int_number_nonneg ms v Hms Hint)|reflexivity].
  - right. left. now rewrite (py_int_raises ms e Hint).
Qed.


Lemma ends_with_app (suf s : string) : ends_with suf (s ++ suf) = true.
Proof.
  induction s as [|c s IH].
  - change ("" ++ suf) with suf. destruct suf; cbn [ends_with];
      now rewrite String.eqb_refl.
  - change (String c s ++ suf) with (String c (s ++ suf)).
    cbn [ends_with]. rewrite IH. apply orb_true_r.
Qed.

(** The only key the filter can write ends in [_time]. *)
Lemma filter_writes_time_key_only (d : gmap string metric_value)
    (msg : py_value) :
  (MetricsFilter.filter d msg).1 = d
  \/ exists s v, (MetricsFilter.filter d msg).1 = <[(s ++ "_time")%string := MInt v]> d.
Proof.
  unfold MetricsFilter.filter.
  destruct (fullmatch _ _) as [m|]; [|now left].
  destruct (py_int _) as [v|e]; [|now left].
  right. eauto.
Qed.

(** Whatever is logged, the filter leaves the entries that [__init__] and
    [pre_transaction] own as they are: [process_tree], [command_args] and
    [package_actions] cannot be overwritten through a log message. *)
Theorem filter_keeps_context_keys (d : gmap string metric_value)
    (msg : py_value) (k : string) :
  k = "process_tree" \/ k = "command_args" \/ k = "package_actions" ->
  (MetricsFilter.filter d msg).1 !! k = d !! k.
Proof.
  intros Hk.
  destruct (filter_writes_time_key_only d msg) as [->|(s & v & ->)];
    [reflexivity|].
  apply lookup_insert_ne. intros Heq.
  pose proof (ends_with_app "_time" s) as He. rewrite Heq in He.
  destruct Hk as [-> | [-> | ->]]; vm_compute in He; discriminate He.
Qed.

Lemma filter_keeps_context_keys_witness :
  (MetricsFilter.filter (time_metrics sample_plugin)
     (PyStr "timer: process tree: 7 ms")).1 !! "process_tree"
  = time_metrics sample_plugin !! "process_tree".
Proof.
  apply (filter_keeps_context_keys (time_metrics sample_plugin)
           (PyStr "timer: process tree: 7 ms") "process_tree").
  left. reflexivity.
Defined.

(** Two timer messages for the same event: the value of the later one is
    what the dictionary holds, the earlier one is gone. *)
Theorem filter_last_write_wins (d : gmap string metric_value) (ev : string)
    (n1 n2 : Z) :
  all_chars MetricsFilter.dot ev = true ->
  0 <= n1 -> 0 <= n2 ->
  (MetricsFilter.filter
     (MetricsFilter.filter d (PyStr (timer_message ev (py_str (PyInt n1))))).1
     (PyStr (timer_message ev (py_str (PyInt n2))))).1
  = <[str_replace " " "_" ev ++ "_time" := MInt n2]> d.
Proof.
  intros Hev H1 H2.
  destruct (str_nonneg_digits n1 H1) as [Hne1 Hdig1].
  destruct (str_nonneg_digits n2 H2) as [Hne2 Hdig2].
  rewrite (filter_integer_stores d ev _ Hev Hne1 Hdig1). cbn [fst].
  rewrite (filter_integer_stores _ ev _ Hev Hne2 Hdig2). cbn [fst].
  rewrite (digits_value_py_str n2 H2). apply insert_insert_eq.
Qed.

Lemma filter_last_write_wins_witness :
  (MetricsFilter.filter
     (MetricsFilter.filter ∅ (PyStr (timer_message "depsolve" (py_str (PyInt 532))))).1
     (PyStr (timer_message "depsolve" (py_str (PyInt 40))))).1
  = <[str_replace " " "_" "depsolve" ++ "_time" := MInt 40]> ∅.
Proof.
  apply (filter_last_write_wins ∅ "depsolve" 532 40); [reflexivity|lia|lia].
Defined.

(** A message that is not a string (an integer, a boolean, [None]) is turned
    into text by [str] and never parsed as a timer: the dictionary stays as
    it is and the filter returns [False]. *)
Theorem filter_ignores_non_strings (d : gmap string metric_value) :
  (forall z, MetricsFilter.filter d (PyInt z) = (d, Return false))
  /\ (forall b, MetricsFilter.filter d (PyBool b) = (d, Return false))
  /\ MetricsFilter.filter d PyNone = (d, Return false).
Proof.
  split; [|split; [intros []; reflexivity|reflexivity]].
  intros z. unfold MetricsFilter.filter.
  assert (H : fullmatch MetricsFilter.TIME_PATTERN (py_str (PyInt z)) = None);
    [|now rewrite H].
  unfold fullmatch, MetricsFilter.TIME_PATTERN. cbn [rmatch Nat.eqb].
  assert (Hu : forall u, strip_prefix "timer: " (NilZero.string_of_uint u) = None).
  { intros u. destruct u; reflexivity. }
  destruct z as [|p|p]; cbn [py_str Z.to_int NilZero.string_of_int];
    [reflexivity|now rewrite Hu|reflexivity].
Qed.

(** ** Configuration values *)

Local Open Scope list_scope.

(** [config] takes any integer for [retention_hours], as Python prints it:
    zero and negative values are accepted like positive ones, and the call
    returns normally. *)
Theorem config_accepts_any_integer (self : plugin) (cp : config_parser)
    (sec : gmap string string) (z : Z) :
  cp !! "main" = Some sec ->
  sec !! "retention_hours" = Some (py_str (PyInt z)) ->
  (config self cp).2 = Return tt /\ retention_hours (config self cp).1 = z.
Proof.
  intros Hsec Hv. unfold config.
  replace (has_section cp "main") with true
    by (symmetry; apply has_section_lookup; rewrite Hsec; eauto).
  rewrite (has_option_lookup cp "main" "metrics_dir" sec Hsec),
    (has_option_lookup cp "main" "retention_hours" sec Hsec), Hv.
  rewrite (get_lookup cp "main" "retention_hours" sec _ Hsec Hv).
  rewrite py_int_py_str. split; reflexivity.
Qed.

Lemma config_accepts_any_integer_witness :
  (config sample_plugin {[ "main" := {[ "retention_hours" := "-1" ]} ]}).2
  = Return tt
  /\ retention_hours
       (config sample_plugin {[ "main" := {[ "retention_hours" := "-1" ]} ]}).1
     = -1.
Proof.
  apply (config_accepts_any_integer sample_plugin
           {[ "main" := {[ "retention_hours" := "-1" ]} ]}
           {[ "retention_hours" := "-1" ]} (-1));
    vm_compute; reflexivity.
Defined.

(** When [metrics_dir] is given and [retention_hours] cannot be parsed,
    [config] raises after it has already taken the new directory: the
    plugin is left with the configured [metrics_dir] and its old
    [retention_hours]. *)
Theorem config_malformed_keeps_new_metrics_dir (self : plugin)
    (cp : config_parser) (sec : gmap string string) (dir v : string) :
  cp !! "main" = Some sec ->
  sec !! "metrics_dir" = Some dir ->
  sec !! "retention_hours" = Some v ->
  raises (py_int v) = true ->
  config self cp = (set_metrics_dir self dir, Raise ValueError).
Proof.
  intros Hsec Hdir Hv Hbad. unfold config.
  replace (has_section cp "main") with true
    by (symmetry; apply has_section_lookup; rewrite Hsec; eauto).
  rewrite (has_option_lookup cp "main" "metrics_dir" sec Hsec),
    (has_option_lookup cp "main" "retention_hours" sec Hsec), Hdir, Hv.
  rewrite (get_lookup cp "main" "retention_hours" sec v Hsec Hv),
    (get_lookup cp "main" "metrics_dir" sec dir Hsec Hdir).
  destruct (py_int v) as [z|e] eqn:Hint; [discriminate Hbad|].
  now rewrite (py_int_raises v e Hint).
Qed.

Lemma config_malformed_keeps_new_metrics_dir_witness :
  config sample_plugin
    {[ "main" := {[ "metrics_dir" := "/srv/metrics"; "retention_hours" := "4h" ]} ]}
  = (set_metrics_dir sample_plugin "/srv/metrics", Raise ValueError).
Proof.
  apply (config_malformed_keeps_new_metrics_dir sample_plugin _
           {[ "metrics_dir" := "/srv/metrics"; "retention_hours" := "4h" ]}
           "/srv/metrics" "4h");
    vm_compute; reflexivity.
Defined.

(** ** The result writer, once more *)

Lemma write_results_catches_io_witness :
  (write_results sample_float_repr disk_full sample_plugin sample_now
     sample_world).2 = Return tt
  /\ (logged (write_results sample_float_repr disk_full sample_plugin sample_now
                sample_world).1 = logged sample_world
      \/ logged (write_results sample_float_repr disk_full sample_plugin
                   sample_now sample_world).1
         = logged sample_world
           ++ [{| levelname := "ERROR";
                  msg_format := "Error writing performance metrics to file %s";
                  msg_arg := os_path_join (metrics_dir sample_plugin)
                               (record_name sample_float_repr disk_full
                                  sample_now) |}]).
Proof.
  apply (write_results_catches_io sample_float_repr disk_full sample_plugin
           sample_now sample_world).
  - left. discriminate.
  - intros e He. discriminate He.
  - intros e He. injection He as <-. reflexivity.
Defined.

(** The only errors that leave [write_results]: the one [os.makedirs]
    raised for a missing directory, in which case nothing else has
    happened, or an error of [open] or of the writes that is not an
    [OSError]. *)
Theorem write_results_raise_cases (float_repr : Q -> string)
    (env : environment) (self : plugin) (now : Q) (w : world) (e : exn) :
  (write_results float_repr env self now w).2 = Raise e ->
  (at_metrics_dir w = Absent /\ makedirs_error env = Some e
   /\ (write_results float_repr env self now w).1 = w)
  \/ (is_OSError e = false
      /\ (open_error env = Some e \/ write_error env = Some e)).
Proof.
  unfold write_results.
  destruct (match at_metrics_dir w with
            | Absent => match makedirs_error env with
                        | Some e0 => Raise e0
                        | None => Return (IsDir [])
                        end
            | st => Return st
            end) as [st|e0] eqn:Hmade.
  - destruct (open_and_write float_repr env self now st) as [st' [[]|e']] eqn:How;
      [discriminate|].
    destruct (is_OSError e') eqn:Hos; cbn [fst snd]; [discriminate|].
    intros [= ->]. right. split; [exact Hos|].
    destruct (open_and_write_raises _ _ _ _ _ _ _ How) as [H|[H|H]];
      [now left|now right|congruence].
  - cbn [fst snd]. intros [= ->]. left.
    destruct (at_metrics_dir w); [|discriminate Hmade..].
    destruct (makedirs_error env); [|discriminate Hmade].
    inversion Hmade; subst. auto.
Qed.

Lemma write_results_raise_cases_witness :
  (at_metrics_dir missing_world = Absent
   /\ makedirs_error read_only_file_system = Some (OSError 30)
   /\ (write_results sample_float_repr read_only_file_system sample_plugin
         sample_now missing_world).1 = missing_world)
  \/ (is_OSError (OSError 30) = false
      /\ (open_error read_only_file_system = Some (OSError 30)
          \/ write_error read_only_file_system = Some (OSError 30))).
Proof.
  apply (write_results_raise_cases sample_float_repr read_only_file_system
           sample_plugin sample_now missing_world (OSError 30)).
  reflexivity.
Defined.

Lemma find_entry_put_entry (name : string) (e : dir_entry) (d : directory) :
  find_entry name (put_entry name e d) = Some e.
Proof.
  induction d as [|[n x] d IH]; cbn [put_entry].
  - apply find_entry_head.
  - destruct (String.eqb_spec n name) as [->|Hne].
    + apply find_entry_head.
    + cbn [find_entry]. now destruct (String.eqb_spec n name).
Qed.

Lemma find_entry_put_entry_ne (name g : string) (e : dir_entry) (d : directory) :
  g <> name -> find_entry g (put_entry name e d) = find_entry g d.
Proof.
  intros Hg. induction d as [|[n x] d IH]; cbn [put_entry find_entry].
  - destruct (String.eqb_spec name g); congruence.
  - destruct (String.eqb_spec n name) as [->|Hne]; cbn [find_entry].
    + destruct (String.eqb_spec name g); congruence.
    + destruct (String.eqb_spec n g); congruence.
Qed.

(** In an existing directory, when nothing fails and the record's name is
    not taken by a subdirectory, [write_results] returns normally, logs
    nothing, and leaves under that name a file with the whole metrics
    dictionary; every other entry of the directory is as it was. *)
Theorem write_results_stores_record (float_repr : Q -> string)
    (env : environment) (self : plugin) (now : Q) (w : world) (d : directory) :
  at_metrics_dir w = IsDir d ->
  open_error env = None ->
  write_error env = None ->
  node_of <$> find_entry (record_name float_repr env now) d <> Some Dir ->
  exists d',
    write_results float_repr env self now w
    = ({| at_metrics_dir := IsDir d'; logged := logged w |}, Return tt)
    /\ find_entry (record_name float_repr env now) d'
       = Some {| node_of := File (Some (time_metrics self)); st_mtime := now |}
    /\ forall g, g <> record_name float_repr env now ->
                 find_entry g d' = find_entry g d.
Proof.
  intros Hd Hopen Hwrite Hfree.
  exists (put_entry (record_name float_repr env now)
            {| node_of := File (Some (time_metrics self)); st_mtime := now |} d).
  split; [|split].
  - unfold write_results, open_and_write. rewrite Hd, Hopen, Hwrite.
    destruct (node_of <$> find_entry (record_name float_repr env now) d)
      as [[|c]|]; [congruence|reflexivity..].
  - apply find_entry_put_entry.
  - intros g Hg. now apply find_entry_put_entry_ne.
Qed.

Lemma write_results_stores_record_witness :
  exists d',
    write_results sample_float_repr (quiet 0 4242) sample_plugin sample_now
      sample_world
    = ({| at_metrics_dir := IsDir d'; logged := logged sample_world |},
       Return tt)
    /\ find_entry (record_name sample_float_repr (quiet 0 4242) sample_now) d'
       = Some {| node_of := File (Some (time_metrics sample_plugin));
                 st_mtime := sample_now |}
    /\ forall g, g <> record_name sample_float_repr (quiet 0 4242) sample_now ->
                 find_entry g d' = find_entry g sample_directory.
Proof.
  apply (write_results_stores_record sample_float_repr (quiet 0 4242)
           sample_plugin sample_now sample_world sample_directory).
  - reflexivity.
  - reflexivity.
  - reflexivity.
  - vm_compute. discriminate.
Defined.

(** ** The transaction hook as root *)

(** When [metrics_dir] names something that is not a directory (a regular
    file, say), a privileged [transaction] first logs the failed write,
    since [open] fails inside the [try], and then lets the
    [NotADirectoryError] of [os.listdir] out of the hook. *)
Theorem transaction_metrics_dir_not_a_directory (float_repr : Q -> string)
    (env : environment) (self : plugin) (t0 now now_w now_c : Q) (w : world) :
  transaction_start_time self = Some t0 ->
  geteuid env = 0 ->
  at_metrics_dir w = NotDir ->
  open_error env = None ->
  (transaction float_repr env self now now_w now_c w).2
  = Raise NotADirectoryError
  /\ (transaction float_repr env self now now_w now_c w).1.2
     = {| at_metrics_dir := NotDir;
          logged :=
            logged w
            ++ [{| levelname := "ERROR";
                   msg_format := "Error writing performance metrics to file %s";
                   msg_arg := os_path_join (metrics_dir self)
                                (record_name float_repr env now_w) |}] |}.
Proof.
  intros Hstart Heuid Hd Hopen.
  unfold transaction, write_results, open_and_write, cleanup_old_logs.
  rewrite Hstart, Heuid, Hd, Hopen. cbn. split; reflexivity.
Qed.

Lemma transaction_metrics_dir_not_a_directory_witness :
  (transaction sample_float_repr (quiet 0 4242)
     (pre_transaction sample_plugin sample_members 999990)
     sample_now sample_now sample_now
     {| at_metrics_dir := NotDir; logged := [] |}).2
  = Raise NotADirectoryError
  /\ (transaction sample_float_repr (quiet 0 4242)
        (pre_transaction sample_plugin sample_members 999990)
        sample_now sample_now sample_now
        {| at_metrics_dir := NotDir; logged := [] |}).1.2
     = {| at_metrics_dir := NotDir;
          logged :=
            [] ++ [{| levelname := "ERROR";
                      msg_format := "Error writing performance metrics to file %s";
                      msg_arg :=
                        os_path_join
                          (metrics_dir
                             (pre_transaction sample_plugin sample_members 999990))
                          (record_name sample_float_repr (quiet 0 4242)
                             sample_now) |}] |}.
Proof.
  apply (transaction_metrics_dir_not_a_directory sample_float_repr
           (quiet 0 4242)
           (pre_transaction sample_plugin sample_members 999990) 999990);
    reflexivity.
Defined.

(** Writing into a directory that has to be created, then sweeping it. *)
Lemma write_then_sweep_first_run (float_repr : Q -> string) (pid : Z)
    (self : plugin) (now_w now_c : Q) (w : world) :
  at_metrics_dir w = Absent ->
  let record :=
    (record_name float_repr (quiet 0 pid) now_w,
     {| node_of := File (Some (time_metrics self)); st_mtime := now_w |}) in
  write_results float_repr (quiet 0 pid) self now_w w
  = ({| at_metrics_dir := IsDir [record]; logged := logged w |}, Return tt)
  /\ cleanup_old_logs (quiet 0 pid) self now_c
       {| at_metrics_dir := IsDir [record]; logged := logged w |}
     = match is_old now_c (retention_hours self) now_w with
       | Return true =>
           ({| at_metrics_dir := IsDir []; logged := logged w |}, Return tt)
       | Return false =>
           ({| at_metrics_dir := IsDir [record]; logged := logged w |},
            Return tt)
       | Raise x =>
           ({| at_metrics_dir := IsDir [record]; logged := logged w |},
            Raise x)
       end.
Proof.
  intros Hd. cbv zeta. split.
  - unfold write_results, open_and_write. now rewrite Hd.
  - unfold cleanup_old_logs.
    cbn [at_metrics_dir logged names map fst].
    rewrite sweep_cons. unfold os_stat, os_remove.
    cbn [quiet gone_before_stat gone_before_remove].
    rewrite !find_entry_head. cbn [st_mtime node_of].
    destruct (is_old now_c (retention_hours self) now_w) as [[|]|x];
      [|reflexivity..].
    cbn [unlink]. rewrite String.eqb_refl. reflexivity.
Qed.

(** A privileged hook whose write has returned goes on with the sweep. *)
Lemma transaction_root_after_write (float_repr : Q -> string) (pid : Z)
    (self : plugin) (t0 now now_w now_c : Q) (w w1 : world) :
  transaction_start_time self = Some t0 ->
  let self1 :=
    set_metric self "full_transaction_time"
      (MInt (py_int_of_float ((now - t0) * inject_Z 1000))) in
  write_results float_repr (quiet 0 pid) self1 now_w w = (w1, Return tt) ->
  transaction float_repr (quiet 0 pid) self now now_w now_c w
  = (self1,
     (cleanup_old_logs (quiet 0 pid) self1 now_c w1).1,
     (cleanup_old_logs (quiet 0 pid) self1 now_c w1).2).
Proof.
  intros Hstart self1 Hwrite. unfold transaction. rewrite Hstart.
  cbn [quiet geteuid Z.eqb negb]. fold self1. rewrite Hwrite.
  now destruct (cleanup_old_logs _ _ _ _).
Qed.

(** The first privileged run, when [metrics_dir] does not exist yet and the
    file system does not fail: the directory is created, nothing is logged,
    and the record of this run is written; it holds the plugin's metrics as
    they were, with [full_transaction_time] added.  The sweep then tests
    that record.  Found older than the threshold (as with a
    [retention_hours] of zero or less and a clock that has moved on), it is
    deleted again, the directory is empty and the hook returns; found not
    older, it stays and the hook returns; and when [retention_hours * 3600]
    is too large to become a float, the test raises [OverflowError] out of
    the hook and the record stays. *)
Theorem transaction_first_run (float_repr : Q -> string) (pid : Z)
    (self : plugin) (t0 now now_w now_c : Q) (w : world) :
  transaction_start_time self = Some t0 ->
  at_metrics_dir w = Absent ->
  let r := transaction float_repr (quiet 0 pid) self now now_w now_c w in
  let record :=
    (record_name float_repr (quiet 0 pid) now_w,
     {| node_of := File (Some (time_metrics r.1.1)); st_mtime := now_w |}) in
  is_Some (time_metrics r.1.1 !! "full_transaction_time")
  /\ (forall k, k <> "full_transaction_time" ->
                time_metrics r.1.1 !! k = time_metrics self !! k)
  /\ r.1.2
     = {| at_metrics_dir :=
            IsDir (match is_old now_c (retention_hours self) now_w with
                   | Return true => []
                   | _ => [record]
                   end);
          logged := logged w |}
  /\ r.2 = match is_old now_c (retention_hours self) now_w with
           | Raise x => Raise x
           | _ => Return tt
           end.
Proof.
  intros Hstart Hd.
  set (self1 := set_metric self "full_transaction_time"
                  (MInt (py_int_of_float ((now - t0) * inject_Z 1000)))).
  destruct (write_then_sweep_first_run float_repr pid self1 now_w now_c w Hd)
    as [Hwrite Hsweep].
  pose proof (transaction_root_after_write float_repr pid self t0 now now_w
                now_c w _ Hstart Hwrite) as Hrun.
  fold self1 in Hrun.
  cbv zeta. rewrite Hrun, Hsweep. cbn [fst snd].
  change (retention_hours self1) with (retention_hours self).
  split; [|split].
  - exists (MInt (py_int_of_float ((now - t0) * inject_Z 1000))).
    apply lookup_insert_eq.
  - intros k Hk. apply lookup_insert_ne. congruence.
  - destruct (is_old now_c (retention_hours self) now_w) as [[|]|x];
      split; reflexivity.
Qed.

Lemma transaction_first_run_witness :
  let r :=
    transaction sample_float_repr (quiet 0 4242)
      (pre_transaction sample_plugin sample_members 999990)
      sample_now sample_now sample_now missing_world in
  let record :=
    (record_name sample_float_repr (quiet 0 4242) sample_now,
     {| node_of := File (Some (time_metrics r.1.1)); st_mtime := sample_now |}) in
  is_Some (time_metrics r.1.1 !! "full_transaction_time")
  /\ (forall k, k <> "full_transaction_time" ->
                time_metrics r.1.1 !! k
                = time_metrics
                    (pre_transaction sample_plugin sample_members 999990) !! k)
  /\ r.1.2
     = {| at_metrics_dir :=
            IsDir (match
                     is_old sample_now
                       (retention_hours
                          (pre_transaction sample_plugin sample_members 999990))
                       sample_now
                   with
                   | Return true => []
                   | _ => [record]
                   end);
          logged := logged missing_world |}
  /\ r.2 = match
             is_old sample_now
               (retention_hours
                  (pre_transaction sample_plugin sample_members 999990))
               sample_now
           with
           | Raise x => Raise x
           | _ => Return tt
           end.
Proof.
  apply (transaction_first_run sample_float_repr 4242
           (pre_transaction sample_plugin sample_members 999990) 999990);
    reflexivity.
Defined.

(** With a [retention_hours] that [config] accepts but that no float can
    hold, the first run writes its record and then raises. *)
Example first_run_overflow :
  let self :=
    set_retention_hours
      (pre_transaction sample_plugin sample_members 999990) (10 ^ 305) in
  (transaction sample_float_repr (quiet 0 4242) self sample_now sample_now
     sample_now missing_world).2 = Raise OverflowError.
Proof. vm_compute. reflexivity. Qed.

(** ** What the sweep never does *)

Lemma unlink_sublist (f : string) (d : directory) : unlink f d `sublist_of` d.
Proof.
  induction d as [|[n x] d IH]; [reflexivity|].
  cbn [unlink]. destruct (String.eqb n f).
  - now apply sublist_cons.
  - now apply sublist_skip.
Qed.

Lemma sweep_sublist (env : environment) (now : Q) (rh : Z)
    (listing : list string) :
  forall d, (sweep env now rh listing d).1 `sublist_of` d.
Proof.
  induction listing as [|f listing IH]; intros d; [reflexivity|].
  rewrite sweep_cons. unfold os_stat.
  destruct (gone_before_stat env f); [apply unlink_sublist|].
  destruct (find_entry f d) as [e|]; [|reflexivity].
  destruct (is_old now rh (st_mtime e)) as [[|]|x]; [|apply IH|reflexivity].
  unfold os_remove.
  destruct (gone_before_remove env f); [apply unlink_sublist|].
  destruct (find_entry f d) as [e'|]; [|reflexivity].
  destruct (node_of e'); [reflexivity|].
  etransitivity; [apply IH|apply unlink_sublist].
Qed.

(** Whatever the environment does (sibling sweepers included) and however
    the sweep ends, [cleanup_old_logs] only ever takes entries away: what is
    left of the directory is a part of what was there, in the same order
    and with every remaining entry unchanged, and nothing is logged. *)
Theorem cleanup_only_removes (env : environment) (self : plugin) (now : Q)
    (w : world) (d : directory) :
  at_metrics_dir w = IsDir d ->
  exists d',
    (cleanup_old_logs env self now w).1
    = {| at_metrics_dir := IsDir d'; logged := logged w |}
    /\ d' `sublist_of` d.
Proof.
  intros Hd. unfold cleanup_old_logs. rewrite Hd.
  pose proof (sweep_sublist env now (retention_hours self) (names d) d) as Hsub.
  destruct (sweep env now (retention_hours self) (names d) d) as [d' r].
  exists d'. split; [reflexivity|exact Hsub].
Qed.

Lemma cleanup_only_removes_witness :
  exists d',
    (cleanup_old_logs sibling_wins_stat sample_plugin sample_now stale_world).1
    = {| at_metrics_dir := IsDir d'; logged := logged stale_world |}
    /\ d' `sublist_of` stale_directory.
Proof.
  apply (cleanup_only_removes sibling_wins_stat sample_plugin sample_now
           stale_world stale_directory).
  reflexivity.
Defined.

Lemma sweep_again_any_order_witness :
  sweep (quiet 0 4242) sample_now (retention_hours sample_plugin)
    ["perfmetrics-999990.5_72.json"; "perfmetrics-985600.0_71.json"]
    [ ("perfmetrics-985600.0_71.json", plain_file (1000000 - 14400));
      ("perfmetrics-999990.5_72.json", plain_file 999990) ]
  = ([ ("perfmetrics-985600.0_71.json", plain_file (1000000 - 14400));
       ("perfmetrics-999990.5_72.json", plain_file 999990) ],
     Return tt).
Proof.
  apply (sweep_again_any_order 0 4242 sample_plugin sample_now sample_world
           sample_world_swept sample_directory).
  - reflexivity.
  - apply (bool_decide_unpack _). vm_compute. reflexivity.
  - vm_compute. reflexivity.
  - reflexivity.
  - apply perm_swap.
Defined.

(** ** File names *)

Lemma string_app_inv_head (a x y : string) :
  (a ++ x = a ++ y)%string -> x = y.
Proof.
  induction a as [|c a IH]; intros H; [exact H|].
  apply IH. now inversion H.
Qed.

Lemma list_ascii_of_string_app (a b : string) :
  list_ascii_of_string (a ++ b)%string
  = list_ascii_of_string a ++ list_ascii_of_string b.
Proof.
  induction a as [|c a IH]; [reflexivity|].
  change (String c a ++ b)%string with (String c (a ++ b)%string).
  cbn [list_ascii_of_string app]. now rewrite IH.
Qed.

Lemma string_app_inv_tail (x y s : string) :
  (x ++ s = y ++ s)%string -> x = y.
Proof.
  intros H. apply (f_equal list_ascii_of_string) in H.
  rewrite !list_ascii_of_string_app in H. apply app_inv_tail in H.
  rewrite <- (string_of_list_ascii_of_string x),
          <- (string_of_list_ascii_of_string y).
  now rewrite H.
Qed.

Lemma py_str_int_inj (z1 z2 : Z) :
  py_str (PyInt z1) = py_str (PyInt z2) -> z1 = z2.
Proof.
  intros H. pose proof (py_int_py_str z1) as H1. rewrite H in H1.
  rewrite py_int_py_str in H1. now inversion H1.
Qed.

(** Two processes that write at the same clock reading get different file
    names: for one timestamp the name determines the process id. *)
Theorem record_name_determines_pid (float_repr : Q -> string)
    (env1 env2 : environment) (now : Q) :
  record_name float_repr env1 now = record_name float_repr env2 now ->
  getpid env1 = getpid env2.
Proof.
  unfold record_name. intros H.
  apply string_app_inv_head, string_app_inv_head, string_app_inv_head in H.
  apply string_app_inv_tail in H. now apply py_str_int_inj.
Qed.

Lemma record_name_determines_pid_witness :
  getpid (quiet 0 4242) = getpid (quiet 1000 4242).
Proof.
  apply (record_name_determines_pid sample_float_repr (quiet 0 4242)
           (quiet 1000 4242) sample_now).
  reflexivity.
Defined.

(** ** From a timer message to the written record *)

Lemma time_key_not_context (s k : string) :
  ends_with "_time" k = false -> (s ++ "_time")%string <> k.
Proof.
  intros Hk Heq. pose proof (ends_with_app "_time" s) as He.
  rewrite Heq in He. congruence.
Qed.

(** A whole run as root on a machine without the metrics directory, with
    the default configuration: [__init__], one timer message logged while
    the plugin is alive, [pre_transaction], [transaction].  The hook returns
    normally, and the plugin's dictionary then holds the timer under its
    key, the process tree root-first (the ancestors from the oldest down to
    the process itself), the command line, the package actions in the
    host's order and the transaction time.  The record file with exactly
    that dictionary is the only entry of the new directory, unless the
    sweep's test finds the file, just written, already older than the four
    hours: then it has been deleted again.  (A timer whose key would be
    [full_transaction_time] is overwritten by the plugin's own
    measurement, hence the hypothesis on the event.) *)
Theorem timer_reaches_the_record (float_repr : Q -> string) (pid : Z)
    (t_init t0 now now_w now_c : Q) (proc_name : string)
    (parents argv : list string) (ev : string) (n : Z)
    (members : list package_action) (w : world) :
  all_chars MetricsFilter.dot ev = true ->
  0 <= n ->
  str_replace " " "_" ev <> "full_transaction" ->
  at_metrics_dir w = Absent ->
  let p0 := init t_init proc_name parents argv in
  let p1 := (log_message p0 (PyStr (timer_message ev (py_str (PyInt n))))).1 in
  let p2 := pre_transaction p1 members t0 in
  let r := transaction float_repr (quiet 0 pid) p2 now now_w now_c w in
  let m := time_metrics r.1.1 in
  m !! (str_replace " " "_" ev ++ "_time")%string = Some (MInt n)
  /\ m !! "process_tree" = Some (MStrings (rev parents ++ [proc_name]))
  /\ m !! "command_args" = Some (MStrings argv)
  /\ m !! "package_actions" = Some (MActions members)
  /\ is_Some (m !! "full_transaction_time")
  /\ r.2 = Return tt
  /\ r.1.2
     = {| at_metrics_dir :=
            IsDir (match is_old now_c DEFAULT_RETENTION_HOURS now_w with
                   | Return true => []
                   | _ => [(record_name float_repr (quiet 0 pid) now_w,
                            {| node_of := File (Some m); st_mtime := now_w |})]
                   end);
          logged := logged w |}.
Proof.
  intros Hev Hn Hkey Hd p0 p1 p2.
  assert (Hp1 : time_metrics p1
                = <[(str_replace " " "_" ev ++ "_time")%string := MInt n]>
                    (time_metrics p0)).
  { subst p1. unfold log_message.
    destruct (str_nonneg_digits n Hn) as [Hne Hdig].
    rewrite (filter_integer_stores (time_metrics p0) ev _ Hev Hne Hdig).
    cbn [fst time_metrics]. now rewrite (digits_value_py_str n Hn). }
  assert (Hrh : retention_hours p2 = DEFAULT_RETENTION_HOURS).
  { subst p2 p1. unfold log_message.
    now destruct (MetricsFilter.filter _ _). }
  set (p3 := set_metric p2 "full_transaction_time"
               (MInt (py_int_of_float ((now - t0) * inject_Z 1000)))).
  destruct (write_then_sweep_first_run float_repr pid p3 now_w now_c w Hd)
    as [Hwrite Hsweep].
  pose proof (transaction_root_after_write float_repr pid p2 t0 now now_w
                now_c w _ eq_refl Hwrite) as Hrun.
  fold p3 in Hrun. cbv zeta. rewrite Hrun, Hsweep. cbn [fst snd].
  change (retention_hours p3) with (retention_hours p2). rewrite Hrh.
  assert (Hio : exists b, is_old now_c DEFAULT_RETENTION_HOURS now_w = Return b).
  { unfold is_old, threshold.
    change (float_of_int (DEFAULT_RETENTION_HOURS * 3600))
      with (Return (A := Q) (round_binary64 (inject_Z 14400))).
    eauto. }
  destruct Hio as [b ->].
  assert (Hk1 : (str_replace " " "_" ev ++ "_time")%string
                <> "full_transaction_time").
  { intros Heq. apply Hkey.
    now apply (string_app_inv_tail _ "full_transaction" "_time"). }
  pose proof (time_key_not_context (str_replace " " "_" ev) "package_actions"
                eq_refl) as Hk2.
  pose proof (time_key_not_context (str_replace " " "_" ev) "command_args"
                eq_refl) as Hk3.
  pose proof (time_key_not_context (str_replace " " "_" ev) "process_tree"
                eq_refl) as Hk4.
  assert (Hm : time_metrics p3
               = <["full_transaction_time"
                   := MInt (py_int_of_float ((now - t0) * inject_Z 1000))]>
                   (<["package_actions" := MActions members]>
                      (<[(str_replace " " "_" ev ++ "_time")%string := MInt n]>
                         (<["command_args" := MStrings argv]>
                            (<["process_tree"
                               := MStrings (rev parents ++ [proc_name])]> ∅))))).
  { cbn [p3 set_metric time_metrics].
    change (time_metrics p2)
      with (<["package_actions" := MActions members]> (time_metrics p1)).
    now rewrite Hp1. }
  split; [|split; [|split; [|split; [|split; [|split]]]]].
  - destruct b; cbn [fst]; rewrite Hm;
      (rewrite lookup_insert_ne by congruence;
       rewrite lookup_insert_ne by congruence; apply lookup_insert_eq).
  - destruct b; cbn [fst]; rewrite Hm;
      (rewrite !lookup_insert_ne by (congruence || discriminate);
       apply lookup_insert_eq).
  - destruct b; cbn [fst]; rewrite Hm;
      (rewrite !lookup_insert_ne by (congruence || discriminate);
       apply lookup_insert_eq).
  - destruct b; cbn [fst]; rewrite Hm;
      (rewrite lookup_insert_ne by discriminate; apply lookup_insert_eq).
  - destruct b; cbn [fst]; rewrite Hm, lookup_insert_eq; eauto.
  - now destruct b.
  - now destruct b.
Qed.

Lemma timer_reaches_the_record_witness :
  let p0 := init 999000 "dnf" ["bash"; "sshd"; "systemd"] ["dnf"; "upgrade"] in
  let p1 :=
    (log_message p0 (PyStr (timer_message "sack setup" (py_str (PyInt 87))))).1 in
  let p2 := pre_transaction p1 sample_members 999990 in
  let r :=
    transaction sample_float_repr (quiet 0 4242) p2 sample_now sample_now
      sample_now missing_world in
  let m := time_metrics r.1.1 in
  m !! (str_replace " " "_" "sack setup" ++ "_time")%string = Some (MInt 87)
  /\ m !! "process_tree"
     = Some (MStrings (rev ["bash"; "sshd"; "systemd"] ++ ["dnf"]))
  /\ m !! "command_args" = Some (MStrings ["dnf"; "upgrade"])
  /\ m !! "package_actions" = Some (MActions sample_members)
  /\ is_Some (m !! "full_transaction_time")
  /\ r.2 = Return tt
  /\ r.1.2
     = {| at_metrics_dir :=
            IsDir (match is_old sample_now DEFAULT_RETENTION_HOURS sample_now with
                   | Return true => []
                   | _ => [(record_name sample_float_repr (quiet 0 4242) sample_now,
                            {| node_of := File (Some m);
                               st_mtime := sample_now |})]
                   end);
          logged := logged missing_world |}.
Proof.
  apply (timer_reaches_the_record sample_float_repr 4242 999000 999990
           sample_now sample_now sample_now "dnf" ["bash"; "sshd"; "systemd"]
           ["dnf"; "upgrade"] "sack setup" 87 sample_members missing_world).
  - reflexivity.
  - lia.
  - vm_compute. discriminate.
  - reflexivity.
Defined.

(** In that run the record is kept. *)
Example sample_run_keeps_record :
  is_old sample_now DEFAULT_RETENTION_HOURS sample_now = Return false.
Proof. vm_compute. reflexivity. Qed.
